(** * A shallow embedding of [server.js], the OpenAI-to-NIM proxy

    First the JavaScript values the program handles (strings of UTF-16
    code units, chunks of bytes and their decoding, values decoded by
    [JSON.parse]) and the built-in operations it applies to them; then the
    program itself: the configuration constants, the streaming branch (the
    handler of the "data" event with its [buffer] and [inReasoning]
    variables), the model resolver ([MODEL_MAP], [resolveFallback]), the
    error envelope, the request builder ([nimBody]), the buffered branch
    and the route; then the properties.

    Effects are explicit: the handler of a chunk takes and returns the two
    variables of the stream and returns its writes; an exception inside a
    [try] block is a value; the call of the backend is a constructor that
    holds the request and the continuation. *)

From Stdlib Require Import List NArith Ascii String Bool Lia DecimalString.
From Stdlib.Strings Require Import Byte.
Import ListNotations.

Local Open Scope N_scope.
Local Open Scope list_scope.

(** ** JavaScript strings

    A JavaScript string is a sequence of 16-bit code units; [length],
    [startsWith], [includes], [slice] and [split] all count code units. *)

Definition jsstring := list N.

(** [js "abc"] is the JavaScript string of an ASCII literal. *)
Definition js (s : string) : jsstring :=
  map N_of_ascii (list_ascii_of_string s).

(** As [js], with an apostrophe standing for the double quote, so that JSON
    text can be written down as a literal. *)
Definition jsq (s : string) : jsstring :=
  map (fun c => if c =? 39 then 34 else c) (js s).

Definition LF : N := 10.

Fixpoint jsstring_eqb (a b : jsstring) : bool :=
  match a, b with
  | [], [] => true
  | x :: a', y :: b' => (x =? y) && jsstring_eqb a' b'
  | _, _ => false
  end.

(** [s.startsWith(p)] *)
Fixpoint startsWith (s p : jsstring) : bool :=
  match p, s with
  | [], _ => true
  | _ :: _, [] => false
  | y :: p', x :: s' => (x =? y) && startsWith s' p'
  end.

(** [s.includes(p)] *)
Fixpoint includes (s p : jsstring) : bool :=
  startsWith s p ||
  match s with
  | [] => false
  | _ :: s' => includes s' p
  end.

(** [s.slice(n)] for a non-negative literal [n]. *)
Definition slice (n : nat) (s : jsstring) : jsstring := skipn n s.

(** [s.split(c)] for a separator of one code unit: the pieces between the
    occurrences of [c]; the result is never empty and its last element is
    what follows the last separator. *)
Fixpoint split (c : N) (s : jsstring) : list jsstring :=
  match s with
  | [] => [[]]
  | x :: s' =>
      if x =? c then [] :: split c s'
      else match split c s' with
           | [] => [[x]]
           | l :: ls => (x :: l) :: ls
           end
  end.

(** [sep.join] of pieces already converted to strings. *)
Fixpoint join (sep : jsstring) (l : list jsstring) : jsstring :=
  match l with
  | [] => []
  | [x] => x
  | x :: l' => x ++ sep ++ join sep l'
  end.

(** ** [Buffer.prototype.toString()]: UTF-8 decoding of one chunk

    Node decodes a [Buffer] as UTF-8 and replaces every ill-formed
    subsequence by U+FFFD.  The decoder below is the usual one: a lead byte
    announces how many continuation bytes follow and the range allowed for
    the first of them; a byte outside that range ends the sequence with one
    replacement character and is then read again as a fresh byte; a
    sequence still open where the chunk ends yields one replacement
    character. *)

Definition REPLACEMENT : N := 65533.

(** A sequence in progress: code point bits so far, continuation bytes still
    needed, bounds for the next byte. *)
Record utf8_pending := {
  u_bits : N;
  u_needed : nat;
  u_lower : N;
  u_upper : N
}.

(** Code point to UTF-16 code units. *)
Definition utf16_of_code_point (cp : N) : jsstring :=
  if cp <? 65536 then [cp]
  else [55296 + N.shiftr (cp - 65536) 10; 56320 + N.land (cp - 65536) 1023].

(** A byte read with no sequence in progress: the code units it yields and
    the sequence it opens. *)
Definition utf8_start (b : N) : jsstring * option utf8_pending :=
  if b <=? 127 then ([b], None)
  else if (194 <=? b) && (b <=? 223) then
    ([], Some {| u_bits := N.land b 31; u_needed := 1; u_lower := 128; u_upper := 191 |})
  else if (224 <=? b) && (b <=? 239) then
    ([], Some {| u_bits := N.land b 15; u_needed := 2;
                 u_lower := if b =? 224 then 160 else 128;
                 u_upper := if b =? 237 then 159 else 191 |})
  else if (240 <=? b) && (b <=? 244) then
    ([], Some {| u_bits := N.land b 7; u_needed := 3;
                 u_lower := if b =? 240 then 144 else 128;
                 u_upper := if b =? 244 then 143 else 191 |})
  else ([REPLACEMENT], None).

Definition utf8_step (st : option utf8_pending) (b : N)
  : jsstring * option utf8_pending :=
  match st with
  | None => utf8_start b
  | Some p =>
      if (u_lower p <=? b) && (b <=? u_upper p) then
        let bits := N.lor (N.shiftl (u_bits p) 6) (N.land b 63) in
        match u_needed p with
        | S (S n) =>
            ([], Some {| u_bits := bits; u_needed := S n;
                         u_lower := 128; u_upper := 191 |})
        | _ => (utf16_of_code_point bits, None)
        end
      else
        let (out, st') := utf8_start b in (REPLACEMENT :: out, st')
  end.

Fixpoint utf8_decode (st : option utf8_pending) (bs : list byte) : jsstring :=
  match bs with
  | [] => match st with None => [] | Some _ => [REPLACEMENT] end
  | b :: bs' =>
      let (out, st') := utf8_step st (Byte.to_N b) in
      out ++ utf8_decode st' bs'
  end.

(** [chunk.toString()] *)
Definition Buffer_toString (chunk : list byte) : jsstring :=
  utf8_decode None chunk.

(** The sequence left open after [bs]. *)
Fixpoint utf8_state (st : option utf8_pending) (bs : list byte)
  : option utf8_pending :=
  match bs with
  | [] => st
  | b :: bs' => utf8_state (snd (utf8_step st (Byte.to_N b))) bs'
  end.

(** A chunk that does not end inside a character. *)
Definition ends_on_character (chunk : list byte) : Prop :=
  utf8_state None chunk = None.

(** The bytes of an ASCII literal; [bytes_q] reads an apostrophe as the
    double quote, like [jsq]. *)
Definition bytes_of (s : string) : list byte := list_byte_of_string s.

Definition bytes_q (s : string) : list byte :=
  map (fun b => if Byte.eqb b x27 then x22 else b) (list_byte_of_string s).

(** ** JavaScript values

    [JSON.parse] yields [null], booleans, numbers, strings, arrays and plain
    objects.  A number keeps the literal it was read from: JavaScript numbers
    are double-precision floats, and the three operations on them that the
    program reaches (printing, the zero test behind truthiness, and the
    finiteness test of [JSON.stringify]) are taken from the runtime below.
    An object is the list of its own properties in enumeration order: array
    indices in ascending order first, then the other keys in creation
    order.  [undefined] is [None] of [option json]. *)

#[local] Set Warnings "-register-all".

Inductive json : Type :=
| JNull
| JBool (b : bool)
| JNum (literal : jsstring)
| JStr (s : jsstring)
| JArr (items : list json)
| JObj (props : list (jsstring * json)).

(** What the embedding takes from the JavaScript runtime without defining
    it: arithmetic on doubles and the Unicode case tables. *)
Class Runtime := {
  (** [String(x)] for the number [x] a JSON number literal denotes *)
  Number_toString : jsstring -> jsstring;
  (** the number read from the literal is [0] or [-0] *)
  Number_isZero : jsstring -> bool;
  (** the number read from the literal is not an infinity *)
  Number_isFinite : jsstring -> bool;
  (** [String.prototype.toLowerCase] *)
  toLowerCase : jsstring -> jsstring
}.

(** Decimal digits of a natural number, as [String(n)] prints an integer
    below 2^53. *)
Definition decimal (n : N) : jsstring :=
  js (NilEmpty.string_of_uint (N.to_uint n)).

Definition is_digit (c : N) : bool := (48 <=? c) && (c <=? 57).

(** Value of a string of decimal digits. *)
Definition digits_value (s : jsstring) : N :=
  fold_left (fun acc c => 10 * acc + (c - 48)) s 0.

(** An array index: the canonical decimal form of an integer below
    2^32 - 1. *)
Definition array_index (k : jsstring) : option N :=
  match k with
  | [] => None
  | c :: rest =>
      if forallb is_digit k
         && ((c =? 48) && (match rest with [] => true | _ => false end)
             || negb (c =? 48))
         && Nat.leb (List.length k) 10
         && (digits_value k <? 4294967295)
      then Some (digits_value k)
      else None
  end.

Fixpoint obj_get (props : list (jsstring * json)) (k : jsstring) : option json :=
  match props with
  | [] => None
  | (k', v) :: rest => if jsstring_eqb k' k then Some v else obj_get rest k
  end.

Definition obj_has (props : list (jsstring * json)) (k : jsstring) : bool :=
  match obj_get props k with Some _ => true | None => false end.

Fixpoint obj_replace (props : list (jsstring * json)) (k : jsstring) (v : json)
  : list (jsstring * json) :=
  match props with
  | [] => []
  | (k', v') :: rest =>
      if jsstring_eqb k' k then (k', v) :: rest
      else (k', v') :: obj_replace rest k v
  end.

(** Where a new array-index key [i] goes: after the index keys below it. *)
Fixpoint obj_insert_index (props : list (jsstring * json)) (i : N)
  (k : jsstring) (v : json) : list (jsstring * json) :=
  match props with
  | [] => [(k, v)]
  | (k', v') :: rest =>
      match array_index k' with
      | Some j => if j <? i then (k', v') :: obj_insert_index rest i k v
                  else (k, v) :: props
      | None => (k, v) :: props
      end
  end.

(** [o[k] = v] on a plain object: an existing property keeps its place, a new
    one is created in enumeration order. *)
Definition obj_set (props : list (jsstring * json)) (k : jsstring) (v : json)
  : list (jsstring * json) :=
  if obj_has props k then obj_replace props k v
  else match array_index k with
       | Some i => obj_insert_index props i k v
       | None => props ++ [(k, v)]
       end.

(** [delete o[k]] *)
Fixpoint obj_delete (props : list (jsstring * json)) (k : jsstring)
  : list (jsstring * json) :=
  match props with
  | [] => []
  | (k', v) :: rest =>
      if jsstring_eqb k' k then rest else (k', v) :: obj_delete rest k
  end.

(** [v.k] or [v[k]] for a value [v] other than [null] and [undefined], and a
    name [k] that no built-in prototype defines (every name the program
    reads, apart from the keys of [MODEL_MAP], is one).  Arrays and strings
    have their indices and [length]; numbers and booleans have nothing. *)
Definition get (v : json) (k : jsstring) : option json :=
  match v with
  | JObj props => obj_get props k
  | JArr items =>
      if jsstring_eqb k (js "length") then Some (JNum (decimal (N.of_nat (List.length items))))
      else match array_index k with
           | Some i => nth_error items (N.to_nat i)
           | None => None
           end
  | JStr s =>
      if jsstring_eqb k (js "length") then Some (JNum (decimal (N.of_nat (List.length s))))
      else match array_index k with
           | Some i => option_map (fun c => JStr [c]) (nth_error s (N.to_nat i))
           | None => None
           end
  | _ => None
  end.

(** [v?.k]: [undefined] when [v] is [null] or [undefined]. *)
Definition get_opt (v : option json) (k : jsstring) : option json :=
  match v with
  | None | Some JNull => None
  | Some x => get x k
  end.

(** ** [JSON.parse]

    A scanner over code units followed by a pushdown recogniser over tokens;
    both read their input once, left to right.  [None] is the [SyntaxError].
    (The engine's limit on nesting depth is not part of the model.) *)

Inductive token :=
| TLBrace | TRBrace | TLBracket | TRBracket | TColon | TComma
| TString (s : jsstring)
| TNumber (literal : jsstring)
| TTrue | TFalse | TNull.

(** Positions inside the number grammar: an optional minus sign; a single
    zero, or a non-zero digit followed by digits; optionally a point and at
    least one digit; optionally [e] or [E], an optional sign and at least
    one digit. *)
Inductive num_state :=
| NMinus | NZero | NInt | NDot | NFrac | NExp | NExpSign | NExpDigits.

Definition num_accepting (n : num_state) : bool :=
  match n with
  | NZero | NInt | NFrac | NExpDigits => true
  | _ => false
  end.

Definition is_e (c : N) : bool := (c =? 101) || (c =? 69).

Definition num_next (n : num_state) (c : N) : option num_state :=
  match n with
  | NMinus => if c =? 48 then Some NZero else if is_digit c then Some NInt else None
  | NZero => if c =? 46 then Some NDot else if is_e c then Some NExp else None
  | NInt => if is_digit c then Some NInt
            else if c =? 46 then Some NDot else if is_e c then Some NExp else None
  | NDot => if is_digit c then Some NFrac else None
  | NFrac => if is_digit c then Some NFrac else if is_e c then Some NExp else None
  | NExp => if (c =? 43) || (c =? 45) then Some NExpSign
            else if is_digit c then Some NExpDigits else None
  | NExpSign => if is_digit c then Some NExpDigits else None
  | NExpDigits => if is_digit c then Some NExpDigits else None
  end.

Inductive lex_state :=
| LTop
| LStr (acc : jsstring)                        (* inside a string; [acc] is reversed *)
| LEsc (acc : jsstring)                        (* after a backslash *)
| LHex (acc : jsstring) (value : N) (seen : nat) (* after [\u] *)
| LNum (n : num_state) (acc : jsstring)
| LWord (rest : jsstring) (t : token).         (* inside [true], [false], [null] *)

Definition hex_value (c : N) : option N :=
  if is_digit c then Some (c - 48)
  else if (97 <=? c) && (c <=? 102) then Some (c - 87)
  else if (65 <=? c) && (c <=? 70) then Some (c - 55)
  else None.

Definition lex_top (c : N) : option (lex_state * list token) :=
  if (c =? 32) || (c =? 9) || (c =? 10) || (c =? 13) then Some (LTop, [])
  else if c =? 123 then Some (LTop, [TLBrace])
  else if c =? 125 then Some (LTop, [TRBrace])
  else if c =? 91 then Some (LTop, [TLBracket])
  else if c =? 93 then Some (LTop, [TRBracket])
  else if c =? 58 then Some (LTop, [TColon])
  else if c =? 44 then Some (LTop, [TComma])
  else if c =? 34 then Some (LStr [], [])
  else if c =? 45 then Some (LNum NMinus [c], [])
  else if c =? 48 then Some (LNum NZero [c], [])
  else if is_digit c then Some (LNum NInt [c], [])
  else if c =? 116 then Some (LWord (js "rue") TTrue, [])
  else if c =? 102 then Some (LWord (js "alse") TFalse, [])
  else if c =? 110 then Some (LWord (js "ull") TNull, [])
  else None.

Definition lex_escape (c : N) : option N :=
  if c =? 34 then Some 34
  else if c =? 92 then Some 92
  else if c =? 47 then Some 47
  else if c =? 98 then Some 8
  else if c =? 102 then Some 12
  else if c =? 110 then Some 10
  else if c =? 114 then Some 13
  else if c =? 116 then Some 9
  else None.

Definition lex_step (st : lex_state) (c : N) : option (lex_state * list token) :=
  match st with
  | LTop => lex_top c
  | LStr acc =>
      if c =? 34 then Some (LTop, [TString (rev acc)])
      else if c =? 92 then Some (LEsc acc, [])
      else if c <? 32 then None
      else Some (LStr (c :: acc), [])
  | LEsc acc =>
      if c =? 117 then Some (LHex acc 0 0, [])
      else option_map (fun x => (LStr (x :: acc), [])) (lex_escape c)
  | LHex acc value seen =>
      match hex_value c with
      | None => None
      | Some h =>
          match seen with
          | 3%nat => Some (LStr (16 * value + h :: acc), [])
          | _ => Some (LHex acc (16 * value + h) (S seen), [])
          end
      end
  | LNum n acc =>
      match num_next n c with
      | Some n' => Some (LNum n' (c :: acc), [])
      | None =>
          if num_accepting n then
            option_map (fun r => (fst r, TNumber (rev acc) :: snd r)) (lex_top c)
          else None
      end
  | LWord rest t =>
      match rest with
      | [] => None
      | x :: rest' =>
          if c =? x then
            match rest' with
            | [] => Some (LTop, [t])
            | _ => Some (LWord rest' t, [])
            end
          else None
      end
  end.

Fixpoint lex_from (st : lex_state) (s : jsstring) : option (list token) :=
  match s with
  | [] =>
      match st with
      | LTop => Some []
      | LNum n acc => if num_accepting n then Some [TNumber (rev acc)] else None
      | _ => None
      end
  | c :: s' =>
      match lex_step st c with
      | None => None
      | Some (st', toks) => option_map (app toks) (lex_from st' s')
      end
  end.

(** The containers that are open around the value being read. *)
Inductive frame :=
| InArray (done : list json)                    (* elements so far, last first *)
| InObject (props : list (jsstring * json)) (key : jsstring).

Inductive parse_state :=
| PValue (stack : list frame)                   (* a value must follow *)
| PArrayOpen (stack : list frame)               (* just after [[] *)
| PObjectOpen (stack : list frame)              (* just after [{] *)
| PKey (props : list (jsstring * json)) (stack : list frame)
| PColon (props : list (jsstring * json)) (key : jsstring) (stack : list frame)
| PDone (v : json) (stack : list frame).        (* [v] is complete *)

Definition begin_value (stack : list frame) (t : token) : option parse_state :=
  match t with
  | TString s => Some (PDone (JStr s) stack)
  | TNumber l => Some (PDone (JNum l) stack)
  | TTrue => Some (PDone (JBool true) stack)
  | TFalse => Some (PDone (JBool false) stack)
  | TNull => Some (PDone JNull stack)
  | TLBracket => Some (PArrayOpen stack)
  | TLBrace => Some (PObjectOpen stack)
  | _ => None
  end.

Definition parse_step (st : parse_state) (t : token) : option parse_state :=
  match st with
  | PValue stack => begin_value stack t
  | PArrayOpen stack =>
      match t with
      | TRBracket => Some (PDone (JArr []) stack)
      | _ => begin_value (InArray [] :: stack) t
      end
  | PObjectOpen stack =>
      match t with
      | TRBrace => Some (PDone (JObj []) stack)
      | TString k => Some (PColon [] k stack)
      | _ => None
      end
  | PKey props stack =>
      match t with
      | TString k => Some (PColon props k stack)
      | _ => None
      end
  | PColon props k stack =>
      match t with
      | TColon => Some (PValue (InObject props k :: stack))
      | _ => None
      end
  | PDone _ [] => None
  | PDone v (InArray done :: stack) =>
      match t with
      | TComma => Some (PValue (InArray (v :: done) :: stack))
      | TRBracket => Some (PDone (JArr (rev (v :: done))) stack)
      | _ => None
      end
  | PDone v (InObject props k :: stack) =>
      match t with
      | TComma => Some (PKey (obj_set props k v) stack)
      | TRBrace => Some (PDone (JObj (obj_set props k v)) stack)
      | _ => None
      end
  end.

Fixpoint parse_from (st : parse_state) (ts : list token) : option json :=
  match ts with
  | [] => match st with PDone v [] => Some v | _ => None end
  | t :: ts' =>
      match parse_step st t with
      | None => None
      | Some st' => parse_from st' ts'
      end
  end.

(** [JSON.parse(text)]; [None] when it throws. *)
Definition JSON_parse (text : jsstring) : option json :=
  match lex_from LTop text with
  | None => None
  | Some ts => parse_from (PValue []) ts
  end.

(** ** The shapes of what the program produces *)

(** What one [output += ...] statement appends. *)
Inductive piece :=
| Opening                      (* [output += "<think>\n"] *)
| Closing                      (* [output += "\n</think>\n\n"] *)
| ReasoningText (s : jsstring) (* [output += reasoning] *)
| ContentText (s : jsstring).  (* [output += content] *)

(** One call of [res.write]: the sentinel (line 135), a payload without a
    delta (line 143), or a payload whose delta went through the merge
    (line 179); the last one records what was appended to [output]. *)
Inductive out_event :=
| Sentinel
| Forwarded (data : json)
| Merged (data : json) (output : list piece).

(** The two variables that live as long as the stream (lines 123-124). *)
Record stream_state := {
  buffer : jsstring;
  inReasoning : bool
}.

(** The value of [nimModel]: a backend model id, or the member of
    [Object.prototype] of that name. *)
Inductive nim_model :=
| ModelId (id : jsstring)
| Inherited (name : jsstring).

(** What the [catch] clause reads of the value it caught: [error.message]
    and, for a rejection by axios that carries a backend response,
    [error.response.status] and [error.response.data]. *)
Record js_error := {
  error_message : jsstring;
  error_response : option (N * option json)
}.

(** A [TypeError] raised by the engine; the wording of its message is the
    engine's and nothing below depends on it. *)
Definition TypeError (message : string) : js_error :=
  {| error_message := js message; error_response := None |}.

Inductive result (A : Type) :=
| Ok (a : A)
| Throw (e : js_error).

Arguments Ok {A} a.
Arguments Throw {A} e.

Definition bind {A B : Type} (r : result A) (f : A -> result B) : result B :=
  match r with
  | Ok a => f a
  | Throw e => Throw e
  end.

Notation "'do' x <- r ; k" := (bind r (fun x => k))
  (at level 10, x name, r at level 100, k at level 200).

(** The answer of the gateway to one request. *)
Inductive reply :=
| Json (status : N) (payload : json)       (* [res.status(status).json(payload)] *)
| EventStream (writes : list jsstring)     (* the SSE headers, the writes, [res.end()] *)
| Uncaught.                                (* the handler itself threw *)

(** The object [nimBody] (lines 91-102). *)

Module NimBody.

Record t := {
  model : nim_model;
  messages : json;
  temperature : json;
  max_tokens : json;
  stream : bool;
  chat_template_kwargs : option json
}.

End NimBody.

(** The handler up to the call of the backend, and what it does with the
    outcome of that call.  [Respond] answers without calling the backend;
    [PostJson] and [PostStream] are [axios.post] with [responseType] "json"
    and "stream", and the continuation receives the decoded response body,
    respectively the chunks the response stream delivers before it ends or
    fails, or the error axios rejects with. *)
Inductive gateway :=
| Respond (r : reply)
| PostJson (body : NimBody.t) (k : result json -> reply)
| PostStream (body : NimBody.t) (k : result (list (list byte)) -> reply).

(** [data.choices?.[0]?.delta?.content] of a payload that is not [null]. *)
Definition delta_content (data : json) : option json :=
  get_opt (get_opt (get_opt (get data (js "choices")) (js "0")) (js "delta"))
    (js "content").

(** ** Conversions that depend on the runtime *)

Section WithRuntime.

Context {R : Runtime}.

(** [ToBoolean]: what [if (v)], [!v], [v || w] test. *)
Definition truthy (v : option json) : bool :=
  match v with
  | None => false
  | Some JNull => false
  | Some (JBool b) => b
  | Some (JNum l) => negb (Number_isZero l)
  | Some (JStr s) => match s with [] => false | _ => true end
  | Some (JArr _) => true
  | Some (JObj _) => true
  end.

(** [ToString], as string concatenation and property keys apply it; [None]
    is the [TypeError] "Cannot convert object to primitive value".  A plain
    object prints as [[object Object]] through [Object.prototype.toString],
    unless an own property named [toString] hides that method: a decoded
    value is never callable, and no conversion is left.  An array prints
    its elements separated by commas, [null] elements as nothing. *)
Fixpoint ToString (v : json) : option jsstring :=
  match v with
  | JNull => Some (js "null")
  | JBool true => Some (js "true")
  | JBool false => Some (js "false")
  | JNum l => Some (Number_toString l)
  | JStr s => Some s
  | JArr items =>
      option_map (join (js ","))
        ((fix each (l : list json) : option (list jsstring) :=
            match l with
            | [] => Some []
            | x :: l' =>
                match (match x with JNull => Some [] | _ => ToString x end),
                      each l' with
                | Some a, Some b => Some (a :: b)
                | _, _ => None
                end
            end) items)
  | JObj props =>
      if obj_has props (js "toString") then None
      else Some (js "[object Object]")
  end.

(** *** [JSON.stringify] *)

Definition hex_digit (n : N) : N := if n <? 10 then 48 + n else 87 + n.

(** [\uXXXX] with lower-case digits. *)
Definition escape_u (c : N) : jsstring :=
  js "\u" ++ [hex_digit (c / 4096); hex_digit ((c / 256) mod 16);
              hex_digit ((c / 16) mod 16); hex_digit (c mod 16)].

Definition is_high_surrogate (c : N) : bool := (55296 <=? c) && (c <=? 56319).
Definition is_low_surrogate (c : N) : bool := (56320 <=? c) && (c <=? 57343).

Fixpoint quote_chars (s : jsstring) : jsstring :=
  match s with
  | [] => []
  | c :: s' =>
      if c =? 8 then js "\b" ++ quote_chars s'
      else if c =? 9 then js "\t" ++ quote_chars s'
      else if c =? 10 then js "\n" ++ quote_chars s'
      else if c =? 12 then js "\f" ++ quote_chars s'
      else if c =? 13 then js "\r" ++ quote_chars s'
      else if c =? 34 then [92; 34] ++ quote_chars s'
      else if c =? 92 then [92; 92] ++ quote_chars s'
      else if c <? 32 then escape_u c ++ quote_chars s'
      else if is_high_surrogate c then
        match s' with
        | d :: s'' =>
            if is_low_surrogate d then c :: d :: quote_chars s''
            else escape_u c ++ quote_chars s'
        | [] => escape_u c
        end
      else if is_low_surrogate c then escape_u c ++ quote_chars s'
      else c :: quote_chars s'
  end.

(** [QuoteJSONString] *)
Definition quote (s : jsstring) : jsstring := [34] ++ quote_chars s ++ [34].

(** [JSON.stringify(v)] with no replacer and no indentation. *)
Fixpoint JSON_stringify (v : json) : jsstring :=
  match v with
  | JNull => js "null"
  | JBool true => js "true"
  | JBool false => js "false"
  | JNum l => if Number_isFinite l then Number_toString l else js "null"
  | JStr s => quote s
  | JArr items => js "[" ++ join (js ",") (map JSON_stringify items) ++ js "]"
  | JObj props =>
      js "{"
      ++ join (js ",")
           (map (fun p => quote (fst p) ++ js ":" ++ JSON_stringify (snd p)) props)
      ++ js "}"
  end.

(** ** Configuration (source lines 16-30) *)

Definition SHOW_REASONING : bool := false.
Definition ENABLE_THINKING : bool := true.

Definition MODEL_MAP : list (jsstring * jsstring) :=
  [ (js "gpt-3.5-turbo", js "z-ai/glm5");
    (js "gpt-4", js "moonshotai/kimi-k2.5");
    (js "gpt-4-turbo", js "qwen/qwen3.5-397b-a17b");
    (js "gpt-4o", js "z-ai/glm5");
    (js "claude-3-opus", js "moonshotai/kimi-k2.5");
    (js "claude-3-sonnet", js "qwen/qwen3.5-397b-a17b");
    (js "gemini-pro", js "z-ai/glm5") ].

(** ** The streaming branch (source lines 118-189) *)

(** The markers of a reasoning span. *)
Definition OPEN_MARKER : jsstring := js "<think>" ++ [LF].
Definition CLOSE_MARKER : jsstring := [LF] ++ js "</think>" ++ [LF; LF].

Definition piece_text (p : piece) : jsstring :=
  match p with
  | Opening => OPEN_MARKER
  | Closing => CLOSE_MARKER
  | ReasoningText s => s
  | ContentText s => s
  end.

(** The value of [output] after the statements that appended [ps]. *)
Definition output_text (ps : list piece) : jsstring :=
  List.concat (map piece_text ps).

Definition SENTINEL_EVENT : jsstring := js "data: [DONE]" ++ [LF; LF].

Definition data_event (data : json) : jsstring :=
  js "data: " ++ JSON_stringify data ++ [LF; LF].

(** The text handed to [res.write]. *)
Definition written (e : out_event) : jsstring :=
  match e with
  | Sentinel => SENTINEL_EVENT
  | Forwarded data => data_event data
  | Merged data _ => data_event data
  end.

(** [data.choices?.[0]?.delta]; the outer [None] is the [TypeError] of
    reading a property of [null]. *)
Definition first_delta (data : json) : option (option json) :=
  match data with
  | JNull => None
  | _ => Some (get_opt (get_opt (get data (js "choices")) (js "0")) (js "delta"))
  end.

(** [delta.content = v]: a property of a plain object is set.  (On a
    primitive the assignment has no effect in non-strict code; the handler
    does not reach it with a delta that is not a plain object, which has no
    fragments.) *)
Definition set_content (delta : json) (v : json) : json :=
  match delta with
  | JObj props => JObj (obj_set props (js "content") v)
  | _ => delta
  end.

(** [delete delta.reasoning_content] *)
Definition delete_reasoning_content (delta : json) : json :=
  match delta with
  | JObj props => JObj (obj_delete props (js "reasoning_content"))
  | _ => delta
  end.

(** [v] with its existing property [k] holding [x]. *)
Definition put (v : json) (k : jsstring) (x : json) : json :=
  match v with
  | JObj props => JObj (obj_replace props k x)
  | JArr items =>
      match array_index k with
      | Some i =>
          JArr (firstn (N.to_nat i) items
                ++ match skipn (N.to_nat i) items with
                   | [] => []
                   | _ :: rest => x :: rest
                   end)
      | None => v
      end
  | _ => v
  end.

(** [delta] is the object [data.choices[0].delta] itself, so [data] is
    printed with the changes made to [delta]. *)
Definition with_delta (data delta' : json) : json :=
  match get data (js "choices") with
  | Some choices =>
      match get choices (js "0") with
      | Some first =>
          put data (js "choices")
            (put choices (js "0") (put first (js "delta") delta'))
      | None => data
      end
  | None => data
  end.

(** Lines 153-159.  The new [inReasoning], and the pieces appended, or
    [None] when [output += reasoning] throws. *)
Definition append_reasoning (show inR : bool) (reasoning : option json)
  : bool * option (list piece) :=
  match reasoning with
  | Some r =>
      if show && truthy reasoning then
        (true,
         option_map (fun s => (if inR then [] else [Opening]) ++ [ReasoningText s])
           (ToString r))
      else (inR, Some [])
  | None => (inR, Some [])
  end.

(** Lines 161-167. *)
Definition append_content (inR : bool) (content : option json)
  : bool * option (list piece) :=
  match content with
  | Some c =>
      if truthy content then
        (false,
         option_map (fun s => (if inR then [Closing] else []) ++ [ContentText s])
           (ToString c))
      else (inR, Some [])
  | None => (inR, Some [])
  end.

(** Lines 147-179 for a delta that passed the test of line 142.  An
    exception leaves the [try] block before [res.write]; the assignments
    to [inReasoning] made before it stay. *)
Definition merge (show inR : bool) (data delta : json) : bool * list out_event :=
  let reasoning := get delta (js "reasoning_content") in
  let content := get delta (js "content") in
  let (inR1, appended1) := append_reasoning show inR reasoning in
  match appended1 with
  | None => (inR1, [])
  | Some ps1 =>
      let (inR2, appended2) := append_content inR1 content in
      match appended2 with
      | None => (inR2, [])
      | Some ps2 =>
          let output := output_text (ps1 ++ ps2) in
          let delta1 :=
            if truthy (Some (JStr output)) then set_content delta (JStr output)
            else if negb (truthy content) && negb (truthy reasoning) then delta
            else set_content delta (JStr []) in
          let delta2 := delete_reasoning_content delta1 in
          (inR2, [Merged (with_delta data delta2) (ps1 ++ ps2)])
      end
  end.

(** The body of the [for] loop (lines 132-182) for one line. *)
Definition process_line (show inR : bool) (line : jsstring) : bool * list out_event :=
  if negb (startsWith line (js "data: ")) then (inR, [])
  else if includes line (js "[DONE]") then (inR, [Sentinel])
  else
    match JSON_parse (slice 6 line) with
    | None => (inR, [])
    | Some data =>
        match first_delta data with
        | None => (inR, [])
        | Some None => (inR, [Forwarded data])
        | Some (Some delta) =>
            if negb (truthy (Some delta)) then (inR, [Forwarded data])
            else merge show inR data delta
        end
    end.

(** The [for] loop. *)
Fixpoint process_lines (show inR : bool) (lines : list jsstring)
  : bool * list out_event :=
  match lines with
  | [] => (inR, [])
  | line :: rest =>
      let (inR1, evs1) := process_line show inR line in
      let (inR2, evs2) := process_lines show inR1 rest in
      (inR2, evs1 ++ evs2)
  end.

Definition stream_start : stream_state :=
  {| buffer := []; inReasoning := false |}.

(** The handler once the chunk is text: lines 127-183 after
    [chunk.toString()]. *)
Definition on_text (show : bool) (st : stream_state) (text : jsstring)
  : stream_state * list out_event :=
  let lines := split LF (buffer st ++ text) in
  let (inR, evs) := process_lines show (inReasoning st) (removelast lines) in
  ({| buffer := last lines []; inReasoning := inR |}, evs).

(** The ["data"] handler (lines 126-184). *)
Definition on_data (show : bool) (st : stream_state) (chunk : list byte)
  : stream_state * list out_event :=
  on_text show st (Buffer_toString chunk).

(** The handler run over the chunks of a stream, in order. *)
Fixpoint feed_text (show : bool) (st : stream_state) (texts : list jsstring)
  : stream_state * list out_event :=
  match texts with
  | [] => (st, [])
  | t :: rest =>
      let (st1, evs1) := on_text show st t in
      let (st2, evs2) := feed_text show st1 rest in
      (st2, evs1 ++ evs2)
  end.

Fixpoint feed (show : bool) (st : stream_state) (chunks : list (list byte))
  : stream_state * list out_event :=
  match chunks with
  | [] => (st, [])
  | c :: rest =>
      let (st1, evs1) := on_data show st c in
      let (st2, evs2) := feed show st1 rest in
      (st2, evs1 ++ evs2)
  end.

(** Everything written to the response between the headers and
    [res.end()], for a backend stream that delivered [chunks]. *)
Definition transcode (show : bool) (chunks : list (list byte)) : list out_event :=
  snd (feed show stream_start chunks).

Definition transcode_text (show : bool) (texts : list jsstring) : list out_event :=
  snd (feed_text show stream_start texts).

(** ** The model resolver (lines 22-48 and 88)

    [MODEL_MAP] is an object literal, so [MODEL_MAP[key]] finds the seven
    own properties and, for the names below, the members it inherits from
    [Object.prototype] (functions, and for [__proto__] the prototype
    object): all of them truthy values that are not strings. *)

Definition Object_prototype : list jsstring :=
  map js [ "constructor"; "__defineGetter__"; "__defineSetter__";
           "hasOwnProperty"; "__lookupGetter__"; "__lookupSetter__";
           "isPrototypeOf"; "propertyIsEnumerable"; "toString"; "valueOf";
           "__proto__"; "toLocaleString" ]%string.

Fixpoint table_get (table : list (jsstring * jsstring)) (key : jsstring)
  : option jsstring :=
  match table with
  | [] => None
  | (k, v) :: rest => if jsstring_eqb k key then Some v else table_get rest key
  end.

(** [MODEL_MAP[key]]; [None] is [undefined]. *)
Definition MODEL_MAP_get (key : jsstring) : option nim_model :=
  match table_get MODEL_MAP key with
  | Some id => Some (ModelId id)
  | None =>
      if existsb (jsstring_eqb key) Object_prototype then Some (Inherited key)
      else None
  end.

Definition nim_truthy (m : option nim_model) : bool :=
  match m with
  | None => false
  | Some (ModelId []) => false
  | Some _ => true
  end.

(** [resolveFallback(name)] for a string (lines 33-48). *)
Definition resolveFallback (name : jsstring) : jsstring :=
  let lower := toLowerCase name in
  if includes lower (js "gpt-4") || includes lower (js "opus")
     || includes lower (js "405b")
  then js "meta/llama-3.1-405b-instruct"
  else if includes lower (js "claude") || includes lower (js "gemini")
          || includes lower (js "70b")
  then js "meta/llama-3.1-70b-instruct"
  else js "meta/llama-3.1-8b-instruct".

(** [MODEL_MAP[name] || resolveFallback(name)] for a string [name]. *)
Definition resolve (name : jsstring) : nim_model :=
  match MODEL_MAP_get name with
  | Some m => if nim_truthy (Some m) then m else ModelId (resolveFallback name)
  | None => ModelId (resolveFallback name)
  end.

(** ** Exceptions and the error envelope (lines 222-232) *)

(** An object literal as [res.json] prints it: a property whose value is
    [undefined] is left out. *)
Fixpoint object_of (fields : list (jsstring * option json)) : list (jsstring * json) :=
  match fields with
  | [] => []
  | (k, Some v) :: rest => (k, v) :: object_of rest
  | (_, None) :: rest => object_of rest
  end.

(** The [catch] clause.  Logging prints [msg] inside a template literal,
    which throws out of the handler when [msg] has no string form. *)
Definition proxy_error (e : js_error) : reply :=
  let status :=
    match error_response e with
    | Some (s, _) => if s =? 0 then 500 else s
    | None => 500
    end in
  let from_backend :=
    match error_response e with
    | Some (_, data) => get_opt (get_opt data (js "error")) (js "message")
    | None => None
    end in
  let own_message :=
    match error_message e with
    | [] => JStr (js "Internal server error")
    | text => JStr text
    end in
  let msg :=
    match from_backend with
    | Some m => if truthy from_backend then m else own_message
    | None => own_message
    end in
  match ToString msg with
  | None => Uncaught
  | Some _ =>
      Json status
        (JObj [ (js "error",
                 JObj [ (js "message", msg);
                        (js "type", JStr (js "proxy_error"));
                        (js "code", JNum (decimal status)) ]) ])
  end.

(** ** The request builder (lines 91-102) *)

Definition build_nimBody (nimModel : nim_model)
  (messages : json) (temperature max_tokens stream : option json) : NimBody.t :=
  {| NimBody.model := nimModel;
     NimBody.messages := messages;
     (* [temperature ?? 0.6] *)
     NimBody.temperature :=
       match temperature with
       | None => JNum (js "0.6")
       | Some JNull => JNum (js "0.6")
       | Some x => x
       end;
     (* [max_tokens || 4096] *)
     NimBody.max_tokens :=
       match max_tokens with
       | Some x => if truthy max_tokens then x else JNum (js "4096")
       | None => JNum (js "4096")
       end;
     (* [!!stream] *)
     NimBody.stream := truthy stream;
     NimBody.chat_template_kwargs :=
       if ENABLE_THINKING then Some (JObj [(js "thinking", JBool true)])
       else None |}.

(** ** The buffered branch (lines 191-221) *)

(** The callback of [.map] for one choice. *)
Definition map_choice (show : bool) (choice : json) : result json :=
  match choice with
  | JNull => Throw (TypeError "Cannot read properties of null (reading 'message')")
  | _ =>
      let message := get choice (js "message") in
      (* [choice.message?.content], or the empty string when it is falsy *)
      let content0 :=
        match get_opt message (js "content") with
        | Some c => if truthy (Some c) then c else JStr []
        | None => JStr []
        end in
      let reasoning := get_opt message (js "reasoning_content") in
      do content <-
        match reasoning with
        | Some r =>
            if show && truthy reasoning then
              match ToString r, ToString content0 with
              | Some rs, Some cs =>
                  Ok (JStr (OPEN_MARKER ++ rs ++ CLOSE_MARKER ++ cs))
              | _, _ => Throw (TypeError "Cannot convert object to primitive value")
              end
            else Ok content0
        | None => Ok content0
        end;
      Ok (JObj (object_of
                  [ (js "index", get choice (js "index"));
                    (js "message",
                     Some (JObj [ (js "role", JStr (js "assistant"));
                                  (js "content", content) ]));
                    (js "finish_reason", get choice (js "finish_reason")) ]))
  end.

Fixpoint map_choices (show : bool) (choices : list json) : result (list json) :=
  match choices with
  | [] => Ok []
  | c :: rest =>
      do c' <- map_choice show c;
      do rest' <- map_choices show rest;
      Ok (c' :: rest')
  end.

(** Lines 192-221: the completion sent for a buffered backend response
    [data]; [t_id] and [t_created] are the two readings of [Date.now()]. *)
Definition completion (show : bool) (t_id t_created : N) (model data : json)
  : result json :=
  match data with
  | JNull => Throw (TypeError "Cannot read properties of null (reading 'choices')")
  | _ =>
      do choices <-
        match get data (js "choices") with
        | Some (JArr items) => map_choices show items
        | Some other =>
            if truthy (Some other)
            then Throw (TypeError "(intermediate value).map is not a function")
            else Ok []
        | None => Ok []
        end;
      let usage :=
        match get data (js "usage") with
        | Some u =>
            if truthy (Some u) then u
            else JObj [ (js "prompt_tokens", JNum (js "0"));
                        (js "completion_tokens", JNum (js "0"));
                        (js "total_tokens", JNum (js "0")) ]
        | None => JObj [ (js "prompt_tokens", JNum (js "0"));
                         (js "completion_tokens", JNum (js "0"));
                         (js "total_tokens", JNum (js "0")) ]
        end in
      Ok (JObj [ (js "id", JStr (js "chatcmpl-" ++ decimal t_id));
                 (js "object", JStr (js "chat.completion"));
                 (js "created", JNum (decimal (t_created / 1000)));
                 (js "model", model);
                 (js "choices", JArr choices);
                 (js "usage", usage) ])
  end.

(** ** The route [POST /v1/chat/completions] (lines 69-233) *)

(** [MODEL_MAP[model] || resolveFallback(model)] for whatever value the
    body holds under [model]: the key is the value's string form, and
    [resolveFallback] calls [toLowerCase], which only strings have. *)
Definition resolve_value (model : json) : result nim_model :=
  let fallback :=
    match model with
    | JStr name => Ok (ModelId (resolveFallback name))
    | _ => Throw (TypeError "name.toLowerCase is not a function")
    end in
  match ToString model with
  | None => Throw (TypeError "Cannot convert object to primitive value")
  | Some key =>
      match MODEL_MAP_get key with
      | Some m => if nim_truthy (Some m) then Ok m else fallback
      | None => fallback
      end
  end.

Definition messages_required : reply :=
  Json 400
    (JObj [ (js "error",
             JObj [ (js "message", JStr (js "messages array is required"));
                    (js "type", JStr (js "invalid_request_error")) ]) ]).

(** [Array.isArray(v)] *)
Definition Array_isArray (v : option json) : bool :=
  match v with
  | Some (JArr _) => true
  | _ => false
  end.

(** [v.length === 0] for an array [v]. *)
Definition length_is_zero (v : option json) : bool :=
  match v with
  | Some (JArr []) => true
  | _ => false
  end.

Definition chat_completions (t_id t_created : N) (body : json) : gateway :=
  match body with
  | JNull =>
      Respond (proxy_error
                 (TypeError "Cannot destructure property 'model' of 'req.body' as it is null."))
  | _ =>
      let model :=
        match get body (js "model") with
        | Some m => m
        | None => JStr (js "gpt-4o")
        end in
      let messages := get body (js "messages") in
      let temperature := get body (js "temperature") in
      let max_tokens := get body (js "max_tokens") in
      let stream := get body (js "stream") in
      match messages with
      | None => Respond messages_required
      | Some the_messages =>
          if negb (truthy messages) || negb (Array_isArray messages)
             || length_is_zero messages
          then Respond messages_required
          else
            match resolve_value model with
            | Throw e => Respond (proxy_error e)
            | Ok nimModel =>
                let nimBody :=
                  build_nimBody nimModel the_messages temperature max_tokens stream in
                if truthy stream then
                  PostStream nimBody
                    (fun outcome =>
                       match outcome with
                       | Throw e => proxy_error e
                       | Ok chunks =>
                           EventStream (map written (transcode SHOW_REASONING chunks))
                       end)
                else
                  PostJson nimBody
                    (fun outcome =>
                       match outcome with
                       | Throw e => proxy_error e
                       | Ok data =>
                           match completion SHOW_REASONING t_id t_created model data with
                           | Ok payload => Json 200 payload
                           | Throw e => proxy_error e
                           end
                       end)
            end
      end
  end.

(** The last middleware (lines 236-240). *)
Definition not_found : reply :=
  Json 404
    (JObj [ (js "error",
             JObj [ (js "message", JStr (js "Not found"));
                    (js "type", JStr (js "invalid_request_error"));
                    (js "code", JNum (js "404")) ]) ]).

End WithRuntime.

(** ** A runtime for evaluating examples

    Exact on ASCII text and on integer literals of at most fifteen digits
    written without sign, fraction or exponent (a literal then prints as
    itself), which is all the examples below contain. *)

Definition ascii_lower (c : N) : N :=
  if (65 <=? c) && (c <=? 90) then c + 32 else c.

(** The digits before the exponent are all zero. *)
Fixpoint literal_isZero (l : jsstring) : bool :=
  match l with
  | [] => true
  | c :: l' =>
      if is_e c then true
      else if is_digit c && negb (c =? 48) then false
      else literal_isZero l'
  end.

#[export] Instance ExampleRuntime : Runtime := {
  Number_toString := fun l => l;
  Number_isZero := literal_isZero;
  Number_isFinite := fun _ => true;
  toLowerCase := map ascii_lower
}.

(** ** Vocabulary of the properties *)

(** A buffer that holds no line feed: the state between two chunks. *)
Definition settled (st : stream_state) : Prop :=
  split LF (buffer st) = [buffer st].

(** The complete lines of a stream: everything before the last line feed
    of the decoded text. *)
Definition lines_of (chunks : list (list byte)) : list jsstring :=
  removelast (split LF (List.concat (map Buffer_toString chunks))).

(** Everything appended to [output] for the events written, in order. *)
Definition pieces_of (evs : list out_event) : list piece :=
  flat_map (fun e => match e with Merged _ ps => ps | _ => [] end) evs.

Definition is_closing (p : piece) : bool :=
  match p with Closing => true | _ => false end.

(** Every opening marker has a closing marker somewhere after it. *)
Fixpoint every_opening_closed (ps : list piece) : bool :=
  match ps with
  | [] => true
  | Opening :: rest => existsb is_closing rest && every_opening_closed rest
  | _ :: rest => every_opening_closed rest
  end.

(** The discipline of a reasoning span, read off a sequence of pieces from
    a state "inside a span" or "outside": an opening marker only outside,
    reasoning text only inside, a closing marker only inside, ordinary
    content only outside.  The result is the state at the end, or [None]
    when the sequence breaks the discipline. *)
Fixpoint span_run (inside : bool) (ps : list piece) : option bool :=
  match ps with
  | [] => Some inside
  | Opening :: rest => if inside then None else span_run true rest
  | ReasoningText _ :: rest => if inside then span_run true rest else None
  | Closing :: rest => if inside then span_run false rest else None
  | ContentText _ :: rest => if inside then None else span_run false rest
  end.

Definition is_content_text (p : piece) : bool :=
  match p with ContentText _ => true | _ => false end.

Section Fragments.

Context {R : Runtime}.

(** A fragment that string concatenation can print: absent, or a value
    whose [ToString] does not throw (every string is one). *)
Definition printable (v : option json) : bool :=
  match v with
  | None => true
  | Some x => match ToString x with Some _ => true | None => false end
  end.

(** The fragments of the delta a line carries, if it is an event line
    that carries one, are printable. *)
Definition fragments_printable (line : jsstring) : bool :=
  if startsWith line (js "data: ") && negb (includes line (js "[DONE]")) then
    match JSON_parse (slice 6 line) with
    | Some data =>
        match first_delta data with
        | Some (Some delta) =>
            printable (get delta (js "reasoning_content"))
            && printable (get delta (js "content"))
        | _ => true
        end
    | None => true
    end
  else true.

(** The fragment a delta holds under one of its two names, as the handler
    takes it: the string form of a truthy value; nothing for a missing or
    falsy one. *)
Definition fragment (mk : jsstring -> piece) (v : option json) : list piece :=
  match v with
  | Some x =>
      if truthy v then
        match ToString x with
        | Some s => [mk s]
        | None => []
        end
      else []
  | None => []
  end.

(** The fragments an input line carries, reasoning before content: those
    of the delta of an event line that is not the sentinel; reasoning
    fragments count only when reasoning is shown. *)
Definition line_fragments (show : bool) (line : jsstring) : list piece :=
  if startsWith line (js "data: ") && negb (includes line (js "[DONE]")) then
    match JSON_parse (slice 6 line) with
    | Some data =>
        match first_delta data with
        | Some (Some delta) =>
            if truthy (Some delta) then
              fragment ReasoningText
                (if show then get delta (js "reasoning_content") else None)
              ++ fragment ContentText (get delta (js "content"))
            else []
        | _ => []
        end
    | None => []
    end
  else [].

(** The fragments of a stream, in the order of arrival. *)
Definition fragments_of (show : bool) (lines : list jsstring) : list piece :=
  flat_map (line_fragments show) lines.

End Fragments.

Definition is_opening (p : piece) : bool :=
  match p with Opening => true | _ => false end.

Definition is_reasoning_text (p : piece) : bool :=
  match p with ReasoningText _ => true | _ => false end.

(** The pieces that are text of the backend, not markers. *)
Definition is_text (p : piece) : bool :=
  match p with
  | ReasoningText _ | ContentText _ => true
  | _ => false
  end.

(** Every marker stands right before the text it announces: an opening
    marker right before a reasoning text, a closing marker right before an
    ordinary content text; in particular no marker is the last piece. *)
Fixpoint markers_placed (ps : list piece) : bool :=
  match ps with
  | [] => true
  | Opening :: rest =>
      match rest with
      | ReasoningText _ :: _ => markers_placed rest
      | _ => false
      end
  | Closing :: rest =>
      match rest with
      | ContentText _ :: _ => markers_placed rest
      | _ => false
      end
  | _ :: rest => markers_placed rest
  end.

(** Whether the last of the fragments is a reasoning text, that is, no
    ordinary content arrived after the last reasoning; [inside] when there
    is no fragment at all. *)
Fixpoint ends_inside (inside : bool) (frs : list piece) : bool :=
  match frs with
  | [] => inside
  | p :: rest => ends_inside (is_reasoning_text p) rest
  end.

(** A stream that ends inside a reasoning span, and one whose reasoning
    fragment has no string form. *)
Definition reasoning_only : list byte :=
  bytes_q "data: {'choices':[{'delta':{'reasoning_content':'hm'}}]}" ++ [x0a].

Definition unprintable_then_content : list byte :=
  bytes_q "data: {'choices':[{'delta':{'reasoning_content':{'toString':1}}}]}"
  ++ [x0a]
  ++ bytes_q "data: {'choices':[{'delta':{'content':'x'}}]}" ++ [x0a].

(** A span of two reasoning events closed by an answer, then a span that
    the end of the stream leaves open. *)
Definition reopened_span : list byte :=
  bytes_q "data: {'choices':[{'delta':{'reasoning_content':'a'}}]}" ++ [x0a]
  ++ bytes_q "data: {'choices':[{'delta':{'reasoning_content':'b'}}]}" ++ [x0a]
  ++ bytes_q "data: {'choices':[{'delta':{'content':'c'}}]}" ++ [x0a]
  ++ bytes_q "data: {'choices':[{'delta':{'reasoning_content':'d'}}]}" ++ [x0a].

(** ** Inputs of the examples *)

(** Three backend events, one per line. *)
Definition reasoning_line : list byte :=
  bytes_q "data: {'choices':[{'delta':{'reasoning_content':'thinking...'}}]}".

Definition content_line : list byte :=
  bytes_q "data: {'choices':[{'delta':{'content':'answer'}}]}".

Definition done_line : list byte := bytes_of "data: [DONE]".

Definition three_lines : list byte :=
  reasoning_line ++ [x0a] ++ content_line ++ [x0a] ++ done_line ++ [x0a].

(** The same three lines, each followed by the blank line that ends an
    event. *)
Definition three_events : list byte :=
  reasoning_line ++ [x0a; x0a] ++ content_line ++ [x0a; x0a]
  ++ done_line ++ [x0a; x0a].

(** One event whose content is U+00E9, two bytes in UTF-8, cut between
    the two. *)
Definition accent_head : list byte :=
  bytes_q "data: {'choices':[{'delta':{'content':'" ++ [xc3].

Definition accent_tail : list byte :=
  [xa9] ++ bytes_q "'}}]}" ++ [x0a].

(** Lines for the sentinel and for unparseable payloads. *)
Definition done_inside_content : jsstring :=
  jsq "data: {'choices':[{'delta':{'content':'[DONE]'}}]}".

Definition done_with_carriage_return : jsstring := js "data: [DONE]" ++ [13].

Definition broken_with_done : jsstring := jsq "data: {'broken [DONE]".

Definition broken_line : jsstring := jsq "data: {'choices':[{'delta':".

(** The backend request of a run of the handler, when it makes one. *)
Definition posted (g : gateway) : option NimBody.t :=
  match g with
  | Respond _ => None
  | PostJson b _ => Some b
  | PostStream b _ => Some b
  end.

(** The ChatRequest of the data model: a non-empty [messages] array and,
    where present, a string [model], numbers for [temperature] and
    [max_tokens], a boolean [stream]. *)
Definition optional (p : json -> bool) (v : option json) : bool :=
  match v with
  | None => true
  | Some x => p x
  end.

Definition is_string (v : json) : bool :=
  match v with JStr _ => true | _ => false end.

Definition is_number (v : json) : bool :=
  match v with JNum _ => true | _ => false end.

Definition is_boolean (v : json) : bool :=
  match v with JBool _ => true | _ => false end.

Definition nonempty_array (v : option json) : bool :=
  match v with
  | Some (JArr (_ :: _)) => true
  | _ => false
  end.

Definition is_ChatRequest (body : json) : bool :=
  nonempty_array (get body (js "messages"))
  && optional is_string (get body (js "model"))
  && optional is_number (get body (js "temperature"))
  && optional is_number (get body (js "max_tokens"))
  && optional is_boolean (get body (js "stream")).

(** Request bodies of the examples. *)
Definition hi_messages : json :=
  JArr [JObj [(js "role", JStr (js "user")); (js "content", JStr (js "hi"))]].


Definition request_gpt_4o : json :=
  JObj [(js "model", JStr (js "gpt-4o")); (js "messages", hi_messages)].

Definition request_zero_tokens : json :=
  JObj [(js "messages", hi_messages); (js "max_tokens", JNum (js "0"))].

Definition request_constructor : json :=
  JObj [(js "model", JStr (js "constructor")); (js "messages", hi_messages)].

(** ** The other routes (lines 53-66) *)

(** [GET /health] *)
Definition health : reply :=
  Json 200 (JObj [ (js "status", JStr (js "ok"));
                   (js "service", JStr (js "nim-proxy")) ]).

(** [Object.keys] of an object literal none of whose keys is an array
    index: the keys as written. *)
Definition Object_keys (table : list (jsstring * jsstring)) : list jsstring :=
  map fst table.

(** The callback of [.map] on line 59, from the [i]-th key on; [now i] is
    what [Date.now()] returns in the call for the [i]-th key. *)
Fixpoint model_entries (now : nat -> N) (i : nat) (ids : list jsstring)
  : list json :=
  match ids with
  | [] => []
  | id :: rest =>
      JObj [ (js "id", JStr id);
             (js "object", JStr (js "model"));
             (js "created", JNum (decimal (now i / 1000)));
             (js "owned_by", JStr (js "nim-proxy")) ]
      :: model_entries now (S i) rest
  end.

(** [GET /v1/models] *)
Definition models (now : nat -> N) : reply :=
  Json 200 (JObj [ (js "object", JStr (js "list"));
                   (js "data",
                    JArr (model_entries now 0 (Object_keys MODEL_MAP))) ]).

(** ** Vocabulary of the further properties *)

(** The ids a model list names: the [id] of every entry of [data]. *)
Definition listed_ids (r : reply) : list jsstring :=
  match r with
  | Json _ payload =>
      match get payload (js "data") with
      | Some (JArr entries) =>
          flat_map (fun entry => match get entry (js "id") with
                                 | Some (JStr id) => [id]
                                 | _ => []
                                 end) entries
      | _ => []
      end
  | _ => []
  end.

(** An event line: what line 132 lets through. *)
Definition is_data_line (line : jsstring) : bool := startsWith line (js "data: ").

(** No key occurs twice. *)
Fixpoint distinct_keys (ks : list jsstring) : bool :=
  match ks with
  | [] => true
  | k :: rest => negb (existsb (jsstring_eqb k) rest) && distinct_keys rest
  end.

(** A value as [JSON.parse] builds them and as the handler keeps them: no
    object in it holds a key twice. *)
Fixpoint well_formed (v : json) : bool :=
  match v with
  | JArr items => forallb well_formed items
  | JObj props =>
      distinct_keys (map fst props)
      && forallb (fun p => well_formed (snd p)) props
  | _ => true
  end.

Definition well_formed_frame (f : frame) : bool :=
  match f with
  | InArray done => forallb well_formed done
  | InObject props _ => well_formed (JObj props)
  end.

(** Everything a state of the recogniser holds is well formed. *)
Definition well_formed_state (st : parse_state) : bool :=
  match st with
  | PValue stack => forallb well_formed_frame stack
  | PArrayOpen stack => forallb well_formed_frame stack
  | PObjectOpen stack => forallb well_formed_frame stack
  | PKey props stack => well_formed (JObj props) && forallb well_formed_frame stack
  | PColon props _ stack => well_formed (JObj props) && forallb well_formed_frame stack
  | PDone v stack => well_formed v && forallb well_formed_frame stack
  end.

(** [data.choices?.[0]?.delta] of a payload that is not [null]. *)
Definition delta_of (data : json) : option json :=
  get_opt (get_opt (get data (js "choices")) (js "0")) (js "delta").

Section Fragmentless.

Context {R : Runtime}.

(** A payload the merge has nothing to do for: it has no delta, or a
    falsy one, or a delta with no [reasoning_content] and no truthy
    [content]. *)
Definition carries_no_fragment (data : json) : bool :=
  match first_delta data with
  | None => false
  | Some None => true
  | Some (Some delta) =>
      negb (truthy (Some delta))
      || (negb (truthy (get delta (js "content")))
          && match get delta (js "reasoning_content") with
             | None => true
             | Some _ => false
             end)
  end.

End Fragmentless.

(** Inputs of the examples of the further properties. *)
Definition finish_line : jsstring :=
  jsq "data: {'id':'c1','choices':[{'index':0,'delta':{},'finish_reason':'stop'}]}".

Definition both_fragments : list (jsstring * json) :=
  [ (js "reasoning_content", JStr (js "because")); (js "content", JStr (js "so")) ].

Definition request_null_model : json :=
  JObj [(js "model", JNull); (js "messages", hi_messages)].

Definition backend_failure : js_error :=
  {| error_message := js "Request failed with status code 429";
     error_response :=
       Some (429, Some (JObj [(js "error",
                               JObj [(js "message", JStr (js "rate limited"))])])) |}.

(** Whether a run of the handler asks the backend for an event stream
    ([responseType] on line 112) and handles the response as one (line
    118). *)
Definition asks_for_stream (g : gateway) : bool :=
  match g with
  | PostStream _ _ => true
  | _ => false
  end.

(** The three ids the keyword rules answer with. *)
Definition fallback_ids : list jsstring :=
  map js [ "meta/llama-3.1-405b-instruct"; "meta/llama-3.1-70b-instruct";
           "meta/llama-3.1-8b-instruct" ]%string.

(** The [message] of every choice of a completion. *)
Definition choice_messages (payload : json) : list (option json) :=
  match get payload (js "choices") with
  | Some (JArr items) => map (fun c => get c (js "message")) items
  | _ => []
  end.

Section BufferedText.

Context {R : Runtime}.

(** [choice.message?.content || ""] (line 193) for a choice that is not
    [null]. *)
Definition content_or_empty (choice : json) : json :=
  match get_opt (get choice (js "message")) (js "content") with
  | Some c => if truthy (Some c) then c else JStr []
  | None => JStr []
  end.

End BufferedText.

Definition assistant_message (content : json) : json :=
  JObj [ (js "role", JStr (js "assistant")); (js "content", content) ].

Section Unlisted.

Context {R : Runtime}.

(** A value whose string form, the key of the lookup on line 88, is found
    neither in the table nor in [Object.prototype], or which has no string
    form. *)
Definition names_no_model (model : json) : bool :=
  match ToString model with
  | Some key =>
      match MODEL_MAP_get key with
      | Some _ => false
      | None => true
      end
  | None => true
  end.

End Unlisted.

Definition request_streaming : json :=
  JObj [(js "messages", hi_messages); (js "stream", JStr (js "yes"))].

Definition backend_answer : json :=
  JObj [(js "choices",
         JArr [JObj [(js "index", JNum (js "0"));
                     (js "message",
                      JObj ((js "role", JStr (js "assistant")) :: both_fragments));
                     (js "finish_reason", JStr (js "stop"))]])].

Definition event_with_both : json :=
  JObj [(js "choices", JArr [JObj [(js "delta", JObj both_fragments)]])].

(** * Properties *)

(** ** The embedding on small inputs *)

Example split_three_pieces :
  split LF (js "a" ++ [LF] ++ js "bc" ++ [LF]) = [js "a"; js "bc"; []]
  /\ split LF [] = [[]].
Proof. split; reflexivity. Qed.

Example toString_two_byte_character :
  Buffer_toString [x41; xc3; xa9] = [65; 233]
  /\ Buffer_toString [x41; xc3] = [65; REPLACEMENT]
  /\ Buffer_toString [xa9] = [REPLACEMENT].
Proof. repeat split; reflexivity. Qed.

Example toString_longer_sequences :
  Buffer_toString [xf0; x9f; x98; x80] = [55357; 56832]
  /\ Buffer_toString [xe4; xb8] = [REPLACEMENT]
  /\ Buffer_toString [xed; xa0; x80] = [REPLACEMENT; REPLACEMENT; REPLACEMENT].
Proof. repeat split; reflexivity. Qed.

Example parse_event :
  JSON_parse (jsq "{'choices':[{'delta':{'content':'answer'}}]}")
  = Some (JObj [(js "choices",
                 JArr [JObj [(js "delta",
                              JObj [(js "content", JStr (js "answer"))])]])]).
Proof. reflexivity. Qed.

Example parse_scalars :
  JSON_parse (jsq " [1, -0.5e+10, true, false, null, 'a\nA'] ")
  = Some (JArr [JNum (js "1"); JNum (js "-0.5e+10"); JBool true; JBool false;
                JNull; JStr [97; 10; 65]]).
Proof. reflexivity. Qed.

Example parse_rejects :
  map JSON_parse
    [ jsq "[DONE]"; jsq ""; jsq "01"; jsq "1."; jsq "-"; jsq "[1,]"; jsq "{'a':1,}";
      jsq "nul"; jsq "null null"; jsq "'abc"; jsq "[[]"; jsq "{'a' 1}"; jsq "{1:1}" ]
  = [None; None; None; None; None; None; None; None; None; None; None; None; None].
Proof. reflexivity. Qed.

(** A repeated key keeps its first place and its last value; array
    indices come first, in ascending order. *)
Example parse_key_order :
  JSON_parse (jsq "{'b':1,'10':2,'b':3,'2':4}")
  = Some (JObj [(js "2", JNum (js "4")); (js "10", JNum (js "2"));
                (js "b", JNum (js "3"))]).
Proof. reflexivity. Qed.

Example stringify_escapes :
  @JSON_stringify ExampleRuntime
    (JObj [(js "k", JArr [JStr [34; 92; 10; 1; 233; 55357; 56832; 55296];
                          JNull; JBool true; JNum (js "12")])])
  = jsq "{'k':['" ++ js "\" ++ [34] ++ js "\\\n\u0001" ++ [233; 55357; 56832]
    ++ js "\ud800" ++ jsq "',null,true,12]}".
Proof. reflexivity. Qed.

Example ToString_values :
  map (@ToString ExampleRuntime)
    [ JStr (js "x"); JBool true; JArr [JNum (js "1"); JArr [JNum (js "2"); JNull]];
      JObj [(js "a", JNull)]; JObj [(js "toString", JNum (js "1"))] ]
  = [Some (js "x"); Some (js "true"); Some (js "1,2,"); Some (js "[object Object]");
     None].
Proof. reflexivity. Qed.

Example resolve_names :
  map (@resolve ExampleRuntime)
    [js "gpt-4"; js "gpt-4o"; js "GPT-4-32k"; js "my-claude"; js "tiny"]
  = [ ModelId (js "moonshotai/kimi-k2.5"); ModelId (js "z-ai/glm5");
      ModelId (js "meta/llama-3.1-405b-instruct");
      ModelId (js "meta/llama-3.1-70b-instruct");
      ModelId (js "meta/llama-3.1-8b-instruct") ].
Proof. reflexivity. Qed.

(** The example of section 8.6 of the specification: the buffered answer
    to [{model:"gpt-4o", messages:[{role:"user",content:"hi"}]}]. *)
Example buffered_completion :
  match @chat_completions ExampleRuntime 1700000000123 1700000000456 request_gpt_4o with
  | PostJson b k =>
      NimBody.model b = ModelId (js "z-ai/glm5")
      /\ k (Ok (JObj [(js "choices",
                       JArr [JObj [(js "index", JNum (js "0"));
                                   (js "message", JObj [(js "content", JStr (js "hello"))]);
                                   (js "finish_reason", JStr (js "stop"))]])]))
         = Json 200
             (JObj [ (js "id", JStr (js "chatcmpl-1700000000123"));
                     (js "object", JStr (js "chat.completion"));
                     (js "created", JNum (js "1700000000"));
                     (js "model", JStr (js "gpt-4o"));
                     (js "choices",
                      JArr [JObj [(js "index", JNum (js "0"));
                                  (js "message",
                                   JObj [(js "role", JStr (js "assistant"));
                                         (js "content", JStr (js "hello"))]);
                                  (js "finish_reason", JStr (js "stop"))]]);
                     (js "usage",
                      JObj [ (js "prompt_tokens", JNum (js "0"));
                             (js "completion_tokens", JNum (js "0"));
                             (js "total_tokens", JNum (js "0")) ]) ])
  | _ => False
  end.
Proof. split; vm_compute; reflexivity. Qed.


(** ** Splitting into lines *)

Lemma split_not_nil (c : N) (s : jsstring) : split c s <> [].
Proof.
  destruct s as [|x s]; simpl; [discriminate|].
  destruct (x =? c); [discriminate|].
  destruct (split c s); discriminate.
Qed.

(** Adding text after [a] leaves the complete lines of [a] as they are and
    continues the fragment that follows its last separator. *)
Lemma split_app (c : N) (a b : jsstring) :
  split c (a ++ b)
  = removelast (split c a) ++ split c (last (split c a) [] ++ b).
Proof.
  induction a as [|x a IH]; simpl; [reflexivity|].
  pose proof (split_not_nil c a) as Hne.
  destruct (x =? c) eqn:E; rewrite IH;
    destruct (split c a) as [|l ls]; try contradiction; [reflexivity|].
  destruct ls as [|l' ls]; simpl; [|reflexivity].
  rewrite E.
  pose proof (split_not_nil c (l ++ b)) as Hne'.
  destruct (split c (l ++ b)); [contradiction|reflexivity].
Qed.

(** The fragment kept in [buffer] holds no line feed, so splitting it again
    gives it back whole. *)
Lemma split_last_fixed (c : N) (s : jsstring) :
  split c (last (split c s) []) = [last (split c s) []].
Proof.
  induction s as [|x s IH]; simpl; [reflexivity|].
  pose proof (split_not_nil c s) as Hne.
  destruct (x =? c) eqn:E.
  - destruct (split c s) as [|l ls]; [contradiction|exact IH].
  - destruct (split c s) as [|l ls]; [contradiction|].
    destruct ls as [|l' ls].
    + simpl in *. rewrite E. rewrite IH. reflexivity.
    + exact IH.
Qed.

Lemma last_app_ne {A : Type} (l l' : list A) (d : A) :
  l' <> [] -> last (l ++ l') d = last l' d.
Proof.
  intros H; induction l as [|x l IH]; simpl; [reflexivity|].
  rewrite IH.
  destruct (l ++ l') eqn:E; [|reflexivity].
  apply app_eq_nil in E; destruct E; contradiction.
Qed.

Section Streaming.

Context {R : Runtime}.

Lemma process_lines_app (show inR : bool) (l1 l2 : list jsstring) :
  process_lines show inR (l1 ++ l2)
  = (fst (process_lines show (fst (process_lines show inR l1)) l2),
     snd (process_lines show inR l1)
     ++ snd (process_lines show (fst (process_lines show inR l1)) l2)).
Proof.
  revert inR; induction l1 as [|line l1 IH]; intros inR; simpl.
  - destruct (process_lines show inR l2); reflexivity.
  - destruct (process_line show inR line) as [inR1 evs1].
    rewrite IH.
    destruct (process_lines show inR1 l1) as [inR2 evs2]; simpl.
    destruct (process_lines show inR2 l2) as [inR3 evs3]; simpl.
    now rewrite app_assoc.
Qed.

Lemma on_text_settled (show : bool) (st : stream_state) (text : jsstring) :
  settled (fst (on_text show st text)).
Proof.
  unfold on_text, settled.
  destruct (process_lines show (inReasoning st)
              (removelast (split LF (buffer st ++ text)))); simpl.
  apply split_last_fixed.
Qed.

(** Handling [a] and then [b] is handling [a ++ b] at once. *)
Lemma on_text_app (show : bool) (st : stream_state) (a b : jsstring) :
  on_text show st (a ++ b)
  = (fst (on_text show (fst (on_text show st a)) b),
     snd (on_text show st a) ++ snd (on_text show (fst (on_text show st a)) b)).
Proof.
  unfold on_text.
  rewrite app_assoc, (split_app LF (buffer st ++ a) b).
  set (la := split LF (buffer st ++ a)).
  destruct (process_lines show (inReasoning st) (removelast la))
    as [inR1 evs1] eqn:E1; simpl.
  set (lb := split LF (last la [] ++ b)).
  assert (Hb : lb <> []) by apply split_not_nil.
  rewrite (removelast_app _ Hb), (last_app_ne _ _ _ Hb).
  rewrite process_lines_app, E1; simpl.
  destruct (process_lines show inR1 (removelast lb)); reflexivity.
Qed.

Lemma on_text_nil (show : bool) (st : stream_state) :
  settled st -> on_text show st [] = (st, []).
Proof.
  unfold settled, on_text; intros H.
  rewrite app_nil_r, H; simpl.
  destruct st; reflexivity.
Qed.

(** The handler run chunk by chunk is the handler run once on the whole
    text. *)
Lemma feed_text_concat (show : bool) (texts : list jsstring) (st : stream_state) :
  settled st ->
  feed_text show st texts = on_text show st (List.concat texts).
Proof.
  revert st; induction texts as [|t texts IH]; intros st Hst; simpl.
  - now rewrite on_text_nil.
  - rewrite on_text_app.
    destruct (on_text show st t) as [st1 evs1] eqn:E1; simpl.
    rewrite IH.
    + destruct (on_text show st1 (List.concat texts)); reflexivity.
    + pose proof (on_text_settled show st t) as H. now rewrite E1 in H.
Qed.

Lemma feed_as_text (show : bool) (chunks : list (list byte)) (st : stream_state) :
  feed show st chunks = feed_text show st (map Buffer_toString chunks).
Proof.
  revert st; induction chunks as [|c chunks IH]; intros st; simpl; [reflexivity|].
  unfold on_data.
  destruct (on_text show st (Buffer_toString c)) as [st1 evs1].
  now rewrite IH.
Qed.

Lemma transcode_lines (show : bool) (chunks : list (list byte)) :
  transcode show chunks = snd (process_lines show false (lines_of chunks)).
Proof.
  unfold transcode, lines_of.
  rewrite feed_as_text, feed_text_concat by reflexivity.
  unfold on_text; simpl.
  destruct (process_lines show false
              (removelast (split LF (List.concat (map Buffer_toString chunks)))));
    reflexivity.
Qed.

(** Chunk boundaries in the decoded text do not matter: two sequences of
    text chunks with the same concatenation produce the same events. *)
Lemma transcode_text_chunking (show : bool) (texts1 texts2 : list jsstring) :
  List.concat texts1 = List.concat texts2 ->
  transcode_text show texts1 = transcode_text show texts2.
Proof.
  intros H; unfold transcode_text.
  rewrite !feed_text_concat by reflexivity.
  now rewrite H.
Qed.

End Streaming.

(** ** Chunk boundaries (C1) *)

Lemma utf8_decode_ascii (bs : list byte) :
  Forall (fun b => Byte.to_N b <= 127) bs ->
  utf8_decode None bs = map Byte.to_N bs.
Proof.
  induction 1 as [|b bs Hb _ IH]; simpl; [reflexivity|].
  unfold utf8_start.
  apply N.leb_le in Hb; rewrite Hb; simpl.
  now rewrite IH.
Qed.

(** ASCII bytes decode chunk by chunk as they decode together. *)
Lemma toString_ascii_chunks (chunks : list (list byte)) :
  Forall (fun b => Byte.to_N b <= 127) (List.concat chunks) ->
  List.concat (map Buffer_toString chunks) = map Byte.to_N (List.concat chunks).
Proof.
  intros H; apply Forall_concat in H.
  rewrite concat_map; f_equal.
  induction H as [|c chunks Hc _ IH]; simpl; [reflexivity|].
  unfold Buffer_toString at 1.
  now rewrite utf8_decode_ascii, IH.
Qed.

(** Decoding goes through a boundary on which no sequence is open. *)
Lemma utf8_decode_app (a b : list byte) (st : option utf8_pending) :
  utf8_state st a = None ->
  utf8_decode st (a ++ b) = utf8_decode st a ++ utf8_decode None b.
Proof.
  revert st; induction a as [|x a IH]; intros st; simpl.
  - now intros ->.
  - intros H. destruct (utf8_step st (Byte.to_N x)) as [out st']; simpl in H.
    now rewrite (IH st' H), app_assoc.
Qed.

Lemma toString_complete_chunks (chunks : list (list byte)) :
  Forall ends_on_character chunks ->
  List.concat (map Buffer_toString chunks) = Buffer_toString (List.concat chunks).
Proof.
  induction 1 as [|c chunks Hc _ IH]; simpl; [reflexivity|].
  unfold Buffer_toString in *.
  now rewrite (utf8_decode_app c _ None Hc), IH.
Qed.

(** Where no chunk ends inside a character, chunk boundaries in the bytes
    do not matter: two deliveries of the same bytes produce the same
    events. *)
Lemma transcode_complete_chunking {R : Runtime} (show : bool)
  (chunks1 chunks2 : list (list byte)) :
  Forall ends_on_character chunks1 ->
  Forall ends_on_character chunks2 ->
  List.concat chunks1 = List.concat chunks2 ->
  transcode show chunks1 = transcode show chunks2.
Proof.
  intros H1 H2 He.
  rewrite !transcode_lines; unfold lines_of.
  now rewrite !toString_complete_chunks, He.
Qed.

(** C1, at the input where the code departs from it: the same bytes, cut
    once between the two bytes of a character, come out as two replacement
    characters, because each chunk is decoded on its own (line 127) before
    it reaches the buffer. *)
Theorem chunk_boundary_inside_character {R : Runtime} (show : bool) :
  List.concat [accent_head; accent_tail] = List.concat [accent_head ++ accent_tail]
  /\ map written (transcode show [accent_head ++ accent_tail])
     = [ js "data: " ++ jsq "{'choices':[{'delta':{'content':'" ++ [233]
         ++ jsq "'}}]}" ++ [LF; LF] ]
  /\ map written (transcode show [accent_head; accent_tail])
     = [ js "data: " ++ jsq "{'choices':[{'delta':{'content':'"
         ++ [REPLACEMENT; REPLACEMENT] ++ jsq "'}}]}" ++ [LF; LF] ].
Proof.
  destruct show; repeat split; vm_compute; reflexivity.
Qed.

(** ** The example of section 8.7 (C3) *)

(** C3: with reasoning shown, a backend stream that consists of the line
    carrying the reasoning fragment "thinking...", the line carrying the
    content fragment "answer" and the line [data: [DONE]] (one after the
    other, or with the blank lines of an event stream between them), cut
    into chunks anywhere, is answered by exactly three writes, in this
    order: a delta whose content is the opening marker followed by
    "thinking...", a delta whose content is the closing marker followed by
    "answer", and the sentinel. *)
Theorem streaming_merge_example {R : Runtime} (chunks : list (list byte)) :
  List.concat chunks = three_lines \/ List.concat chunks = three_events ->
  map written (transcode true chunks)
  = [ jsq "data: {'choices':[{'delta':{'content':'<think>\nthinking...'}}]}"
        ++ [LF; LF];
      jsq "data: {'choices':[{'delta':{'content':'\n</think>\n\nanswer'}}]}"
        ++ [LF; LF];
      js "data: [DONE]" ++ [LF; LF] ]
  /\ map (fun e => match e with
                   | Merged data _ => delta_content data
                   | _ => None
                   end) (transcode true chunks)
     = [ Some (JStr (js "<think>" ++ [LF] ++ js "thinking..."));
         Some (JStr ([LF] ++ js "</think>" ++ [LF; LF] ++ js "answer"));
         None ]
  /\ nth_error (transcode true chunks) 2 = Some Sentinel.
Proof.
  intros H.
  rewrite transcode_lines; unfold lines_of.
  rewrite toString_ascii_chunks.
  - destruct H as [-> | ->]; repeat split; vm_compute; reflexivity.
  - destruct H as [-> | ->]; repeat constructor; vm_compute; discriminate.
Qed.

Lemma streaming_merge_example_witness :
  (List.concat [firstn 40 three_lines; skipn 40 three_lines] = three_lines
   \/ List.concat [firstn 40 three_lines; skipn 40 three_lines] = three_events)
  /\ nth_error
       (@transcode ExampleRuntime true [firstn 40 three_lines; skipn 40 three_lines]) 2
     = Some Sentinel.
Proof.
  split; [left; reflexivity|].
  apply (@streaming_merge_example ExampleRuntime
           [firstn 40 three_lines; skipn 40 three_lines] (or_introl eq_refl)).
Defined.

(** ** Objects and paths *)

Lemma jsstring_eqb_eq (a b : jsstring) : jsstring_eqb a b = true <-> a = b.
Proof.
  revert b; induction a as [|x a IH]; intros [|y b]; simpl;
    try (split; [discriminate|discriminate]); [tauto|].
  rewrite andb_true_iff, N.eqb_eq, IH.
  split; [intros [-> ->]; reflexivity|intros E; inversion E; tauto].
Qed.

Lemma jsstring_eqb_refl (a : jsstring) : jsstring_eqb a a = true.
Proof. now apply jsstring_eqb_eq. Qed.

Lemma obj_get_replace (props : list (jsstring * json)) (k : jsstring) (x : json) :
  obj_has props k = true -> obj_get (obj_replace props k x) k = Some x.
Proof.
  unfold obj_has.
  induction props as [|[k' v'] props IH]; simpl; [discriminate|].
  destruct (jsstring_eqb k' k) eqn:E; simpl; rewrite E; [reflexivity|exact IH].
Qed.

Lemma obj_get_app_new (props : list (jsstring * json)) (k : jsstring) (x : json) :
  obj_has props k = false -> obj_get (props ++ [(k, x)]) k = Some x.
Proof.
  unfold obj_has.
  induction props as [|[k' v'] props IH]; simpl.
  - now rewrite jsstring_eqb_refl.
  - destruct (jsstring_eqb k' k); [discriminate|exact IH].
Qed.

(** Setting a property that is not an array index, and reading it back. *)
Lemma obj_get_set (props : list (jsstring * json)) (k : jsstring) (x : json) :
  array_index k = None -> obj_get (obj_set props k x) k = Some x.
Proof.
  intros Hk; unfold obj_set; rewrite Hk.
  destruct (obj_has props k) eqn:E.
  - now apply obj_get_replace.
  - now apply obj_get_app_new.
Qed.

Lemma obj_get_delete_other (props : list (jsstring * json)) (k k' : jsstring) :
  k' <> k -> obj_get (obj_delete props k') k = obj_get props k.
Proof.
  intros Hne.
  induction props as [|[k1 v1] props IH]; simpl; [reflexivity|].
  destruct (jsstring_eqb k1 k') eqn:E1.
  - apply jsstring_eqb_eq in E1; subst k1.
    destruct (jsstring_eqb k' k) eqn:E2; [|reflexivity].
    apply jsstring_eqb_eq in E2; contradiction.
  - simpl. now rewrite IH.
Qed.

(** Reading a name that is neither [length] nor an array index. *)
Lemma get_named (v : json) (k : jsstring) :
  jsstring_eqb k (js "length") = false ->
  array_index k = None ->
  get v k = match v with JObj props => obj_get props k | _ => None end.
Proof.
  intros H1 H2; destruct v; simpl; try reflexivity; now rewrite H1, H2.
Qed.

Lemma get_0 (v : json) :
  get v (js "0")
  = match v with
    | JObj props => obj_get props (js "0")
    | JArr items => nth_error items 0
    | JStr s => option_map (fun c => JStr [c]) (nth_error s 0)
    | _ => None
    end.
Proof. destruct v; reflexivity. Qed.

Lemma get_put_obj (props : list (jsstring * json)) (k : jsstring) (x : json) :
  obj_has props k = true -> get (put (JObj props) k x) k = Some x.
Proof. intros H; simpl. now apply obj_get_replace. Qed.

Lemma obj_get_has (props : list (jsstring * json)) (k : jsstring) (v : json) :
  obj_get props k = Some v -> obj_has props k = true.
Proof. unfold obj_has; now intros ->. Qed.

(** The places where a delta can sit: [data] is an object, its [choices]
    an array or an object, the first choice an object. *)
Lemma first_delta_path (data delta : json) :
  first_delta data = Some (Some delta) ->
  exists props choices fprops,
    data = JObj props
    /\ obj_get props (js "choices") = Some choices
    /\ get choices (js "0") = Some (JObj fprops)
    /\ obj_get fprops (js "delta") = Some delta
    /\ ((exists items, choices = JArr (JObj fprops :: items))
        \/ (exists cprops, choices = JObj cprops)).
Proof.
  unfold first_delta.
  rewrite (get_named data (js "choices")) by reflexivity.
  destruct data as [| | | | |props]; try discriminate.
  destruct (obj_get props (js "choices")) as [choices|] eqn:Ec; [|discriminate].
  intros H; injection H as H.
  assert (Hf : exists first, get choices (js "0") = Some first
                             /\ get_opt (Some first) (js "delta") = Some delta).
  { cbn [get_opt] in H.
    destruct (get choices (js "0")) as [first|] eqn:Eg.
    - exists first; split; [reflexivity|].
      destruct choices; try discriminate; exact H.
    - destruct choices; discriminate. }
  destruct Hf as (first & Hg & Hd).
  assert (Hfo : exists fprops, first = JObj fprops
                               /\ obj_get fprops (js "delta") = Some delta).
  { destruct first as [| | | | |fprops]; try discriminate.
    exists fprops; split; [reflexivity|exact Hd]. }
  destruct Hfo as (fprops & -> & Hfd).
  exists props, choices, fprops; repeat split; try assumption.
  rewrite get_0 in Hg.
  destruct choices as [| | |s|items|cprops]; try discriminate.
  - destruct (nth_error s 0); discriminate.
  - left. destruct items as [|x items]; [discriminate|].
    injection Hg as ->. now exists items.
  - right. now exists cprops.
Qed.

(** [data] printed after the merge shows the changed delta where the
    original one was. *)
Lemma with_delta_read (data delta : json) (props' : list (jsstring * json)) :
  first_delta data = Some (Some delta) ->
  get_opt (get_opt (get (with_delta data (JObj props')) (js "choices")) (js "0"))
    (js "delta")
  = Some (JObj props').
Proof.
  intros H.
  destruct (first_delta_path _ _ H) as (props & choices & fprops & -> & Hc & H0 & Hd & Hk).
  unfold with_delta.
  rewrite (get_named (JObj props) (js "choices")) by reflexivity.
  rewrite Hc, H0.
  rewrite (get_put_obj _ _ _ (obj_get_has _ _ _ Hc)).
  destruct Hk as [(items & ->)|(cprops & ->)].
  - cbn [get_opt put].
    change (array_index (js "0")) with (Some 0).
    cbn [N.to_nat firstn skipn app].
    rewrite get_0. cbn [nth_error get_opt get].
    now apply obj_get_replace, (obj_get_has _ _ delta).
  - cbn [get_opt put].
    rewrite get_0.
    rewrite get_0 in H0.
    rewrite (obj_get_replace _ _ _ (obj_get_has _ _ _ H0)).
    cbn [get_opt get].
    now apply obj_get_replace, (obj_get_has _ _ delta).
Qed.

(** ** Reasoning spans (C2) *)

Lemma span_run_app (inside : bool) (ps qs : list piece) :
  span_run inside (ps ++ qs)
  = match span_run inside ps with
    | Some b => span_run b qs
    | None => None
    end.
Proof.
  revert inside; induction ps as [|p ps IH]; intros inside; simpl; [reflexivity|].
  destruct p, inside; auto.
Qed.

Lemma pieces_of_app (evs1 evs2 : list out_event) :
  pieces_of (evs1 ++ evs2) = pieces_of evs1 ++ pieces_of evs2.
Proof. apply flat_map_app. Qed.

Lemma markers_placed_app (ps qs : list piece) :
  markers_placed ps = true -> markers_placed qs = true ->
  markers_placed (ps ++ qs) = true.
Proof.
  intros Hp Hq; induction ps as [|p ps IH]; [exact Hq|].
  destruct p; cbn [app markers_placed] in *; auto;
    (destruct ps as [|[] ps]; try discriminate; cbn [app] in *; auto).
Qed.

(** Under the discipline, with the markers in their places, the state at
    the end is told by the last text. *)
Lemma span_run_ends (ps : list piece) (inside final : bool) :
  span_run inside ps = Some final ->
  markers_placed ps = true ->
  final = ends_inside inside (filter is_text ps).
Proof.
  revert inside; induction ps as [|p ps IH]; intros inside; cbn [span_run].
  - intros H _; now injection H.
  - destruct p, inside; try discriminate; cbn [markers_placed filter is_text];
      intros Hs Hm.
    + destruct ps as [|[] ps]; try discriminate. apply (IH true Hs Hm).
    + destruct ps as [|[] ps]; try discriminate. apply (IH false Hs Hm).
    + apply (IH true Hs Hm).
    + apply (IH false Hs Hm).
Qed.

Lemma span_leaves (ps : list piece) :
  span_run true ps = Some false -> existsb is_closing ps = true.
Proof.
  induction ps as [|[] ps IH]; cbn [span_run existsb is_closing orb];
    try discriminate; auto.
Qed.

Lemma span_enters (ps : list piece) :
  span_run false ps = Some true -> existsb is_opening ps = true.
Proof.
  induction ps as [|[] ps IH]; cbn [span_run existsb is_opening orb];
    try discriminate; auto.
Qed.

Lemma span_reenters (ps : list piece) :
  span_run true ps = Some true ->
  existsb is_closing ps = true -> existsb is_opening ps = true.
Proof.
  induction ps as [|[] ps IH]; cbn [span_run existsb is_closing is_opening orb];
    try discriminate; auto.
  intros H _. now apply span_enters.
Qed.

(** Under the discipline an opening marker stays without a closing one
    exactly when the sequence ends inside a span. *)
Lemma span_run_closed (ps : list piece) (inside final : bool) :
  span_run inside ps = Some final ->
  every_opening_closed ps
  = if inside then negb final || negb (existsb is_opening ps) else negb final.
Proof.
  revert inside; induction ps as [|p ps IH]; intros inside; cbn [span_run].
  - intros H; injection H as <-. now destruct inside.
  - destruct p, inside; try discriminate;
      cbn [every_opening_closed existsb is_opening orb]; intros Hs.
    + rewrite (IH true Hs). destruct final; cbn [negb orb].
      * destruct (existsb is_closing ps) eqn:Ec; [|reflexivity].
        now rewrite (span_reenters ps Hs Ec).
      * now rewrite (span_leaves ps Hs).
    + rewrite (IH false Hs). destruct final; cbn [negb orb]; [|reflexivity].
      now rewrite (span_enters ps Hs).
    + apply (IH true Hs).
    + apply (IH false Hs).
Qed.

Section Spans.

Context {R : Runtime}.

Lemma append_reasoning_placed (show inR : bool) (reasoning : option json) :
  printable reasoning = true ->
  exists ps,
    append_reasoning show inR reasoning
    = (fst (append_reasoning show inR reasoning), Some ps)
    /\ markers_placed ps = true
    /\ filter is_text ps
       = fragment ReasoningText (if show then reasoning else None).
Proof.
  unfold append_reasoning, printable, fragment.
  destruct reasoning as [r|]; [|exists []; now destruct show].
  destruct show; cbn [andb]; [|now exists []].
  destruct (truthy (Some r)); [|now exists []].
  destruct (ToString r) as [s|]; [|discriminate].
  intros _; cbn [option_map fst].
  exists ((if inR then [] else [Opening]) ++ [ReasoningText s]).
  now destruct inR.
Qed.

Lemma append_content_placed (inR : bool) (content : option json) :
  printable content = true ->
  exists ps,
    append_content inR content = (fst (append_content inR content), Some ps)
    /\ markers_placed ps = true
    /\ filter is_text ps = fragment ContentText content.
Proof.
  unfold append_content, printable, fragment.
  destruct content as [c|]; [|now exists []].
  destruct (truthy (Some c)); [|now exists []].
  destruct (ToString c) as [s|]; [|discriminate].
  intros _; cbn [option_map fst].
  exists ((if inR then [Closing] else []) ++ [ContentText s]).
  now destruct inR.
Qed.

Lemma merge_placed (show inR : bool) (data delta : json) :
  printable (get delta (js "reasoning_content")) = true ->
  printable (get delta (js "content")) = true ->
  markers_placed (pieces_of (snd (merge show inR data delta))) = true
  /\ filter is_text (pieces_of (snd (merge show inR data delta)))
     = fragment ReasoningText
         (if show then get delta (js "reasoning_content") else None)
       ++ fragment ContentText (get delta (js "content")).
Proof.
  intros Hr Hc; unfold merge.
  destruct (append_reasoning_placed show inR _ Hr) as (ps1 & E1 & M1 & F1).
  rewrite E1.
  destruct (append_content_placed (fst (append_reasoning show inR
              (get delta (js "reasoning_content")))) _ Hc) as (ps2 & E2 & M2 & F2).
  rewrite E2; cbn [snd pieces_of flat_map].
  rewrite app_nil_r, filter_app, F1, F2.
  split; [now apply markers_placed_app|reflexivity].
Qed.

Lemma process_line_placed (show inR : bool) (line : jsstring) :
  fragments_printable line = true ->
  markers_placed (pieces_of (snd (process_line show inR line))) = true
  /\ filter is_text (pieces_of (snd (process_line show inR line)))
     = line_fragments show line.
Proof.
  unfold fragments_printable, process_line, line_fragments.
  destruct (startsWith line (js "data: ")); cbn [negb andb]; [|now split].
  destruct (includes line (js "[DONE]")); cbn [negb]; [now split|].
  destruct (JSON_parse (slice 6 line)) as [data|]; [|now split].
  destruct (first_delta data) as [[delta|]|]; try now split.
  intros H; apply andb_true_iff in H as [Hr Hc].
  destruct (truthy (Some delta)); cbn [negb]; [|now split].
  now apply merge_placed.
Qed.

Lemma process_lines_placed (show : bool) (lines : list jsstring) (inR : bool) :
  Forall (fun line => fragments_printable line = true) lines ->
  markers_placed (pieces_of (snd (process_lines show inR lines))) = true
  /\ filter is_text (pieces_of (snd (process_lines show inR lines)))
     = fragments_of show lines.
Proof.
  intros H; revert inR; induction H as [|line lines Hl _ IH]; intros inR;
    cbn [process_lines]; [now split|].
  destruct (process_line_placed show inR line Hl) as [M1 F1].
  destruct (process_line show inR line) as [inR1 evs1]; cbn [snd] in M1, F1.
  destruct (IH inR1) as [M2 F2].
  destruct (process_lines show inR1 lines) as [inR2 evs2]; cbn [snd] in *.
  rewrite pieces_of_app, filter_app, F1, F2.
  split; [now apply markers_placed_app|reflexivity].
Qed.

Lemma append_reasoning_span (show inR : bool) (reasoning : option json) :
  printable reasoning = true ->
  exists ps,
    append_reasoning show inR reasoning
    = (fst (append_reasoning show inR reasoning), Some ps)
    /\ span_run inR ps = Some (fst (append_reasoning show inR reasoning)).
Proof.
  unfold append_reasoning, printable.
  destruct reasoning as [r|]; [|now exists []].
  destruct (show && truthy (Some r)); [|now exists []].
  destruct (ToString r) as [s|]; [|discriminate].
  intros _; simpl.
  exists ((if inR then [] else [Opening]) ++ [ReasoningText s]).
  now destruct inR.
Qed.

Lemma append_content_span (inR : bool) (content : option json) :
  printable content = true ->
  exists ps,
    append_content inR content = (fst (append_content inR content), Some ps)
    /\ span_run inR ps = Some (fst (append_content inR content)).
Proof.
  unfold append_content, printable.
  destruct content as [c|]; [|now exists []].
  destruct (truthy (Some c)); [|now exists []].
  destruct (ToString c) as [s|]; [|discriminate].
  intros _; simpl.
  exists ((if inR then [Closing] else []) ++ [ContentText s]).
  now destruct inR.
Qed.

Lemma merge_span (show inR : bool) (data delta : json) :
  printable (get delta (js "reasoning_content")) = true ->
  printable (get delta (js "content")) = true ->
  span_run inR (pieces_of (snd (merge show inR data delta)))
  = Some (fst (merge show inR data delta)).
Proof.
  intros Hr Hc; unfold merge.
  destruct (append_reasoning_span show inR _ Hr) as (ps1 & E1 & S1).
  rewrite E1.
  destruct (append_content_span (fst (append_reasoning show inR
              (get delta (js "reasoning_content")))) _ Hc) as (ps2 & E2 & S2).
  rewrite E2; simpl.
  now rewrite app_nil_r, span_run_app, S1.
Qed.

Lemma process_line_span (show inR : bool) (line : jsstring) :
  fragments_printable line = true ->
  span_run inR (pieces_of (snd (process_line show inR line)))
  = Some (fst (process_line show inR line)).
Proof.
  unfold fragments_printable, process_line.
  destruct (startsWith line (js "data: ")); cbn [negb andb]; [|reflexivity].
  destruct (includes line (js "[DONE]")); cbn [negb]; [reflexivity|].
  destruct (JSON_parse (slice 6 line)) as [data|]; [|reflexivity].
  destruct (first_delta data) as [[delta|]|]; try reflexivity.
  intros H; apply andb_true_iff in H as [Hr Hc].
  destruct (truthy (Some delta)); cbn [negb]; [|reflexivity].
  now apply merge_span.
Qed.

Lemma process_lines_span (show : bool) (lines : list jsstring) (inR : bool) :
  Forall (fun line => fragments_printable line = true) lines ->
  span_run inR (pieces_of (snd (process_lines show inR lines)))
  = Some (fst (process_lines show inR lines)).
Proof.
  intros H; revert inR; induction H as [|line lines Hl _ IH]; intros inR; simpl;
    [reflexivity|].
  pose proof (process_line_span show inR line Hl) as H1.
  destruct (process_line show inR line) as [inR1 evs1]; simpl in H1.
  specialize (IH inR1).
  destruct (process_lines show inR1 lines) as [inR2 evs2]; simpl in *.
  now rewrite pieces_of_app, span_run_app, H1.
Qed.

(** With reasoning hidden the state never leaves [false] and only
    ordinary content is appended. *)
Lemma merge_hidden (data delta : json) :
  fst (merge false false data delta) = false
  /\ forallb is_content_text (pieces_of (snd (merge false false data delta))) = true.
Proof.
  unfold merge, append_reasoning.
  assert (E : (let (inR1, appended1) :=
                 match get delta (js "reasoning_content") with
                 | Some r =>
                     if false && truthy (get delta (js "reasoning_content"))
                     then (true, option_map (fun s => [Opening] ++ [ReasoningText s])
                                   (ToString r))
                     else (false, Some [])
                 | None => (false, Some [])
                 end in (inR1, appended1)) = (false, Some [])).
  { destruct (get delta (js "reasoning_content")); reflexivity. }
  destruct (get delta (js "reasoning_content")); simpl;
    unfold append_content;
    (destruct (get delta (js "content")) as [c|]; [|now split]);
    (destruct (truthy (Some c)); [|now split]);
    (destruct (ToString c); now split).
Qed.

Lemma process_line_hidden (line : jsstring) :
  fst (process_line false false line) = false
  /\ forallb is_content_text (pieces_of (snd (process_line false false line))) = true.
Proof.
  unfold process_line.
  destruct (startsWith line (js "data: ")); cbn [negb]; [|now split].
  destruct (includes line (js "[DONE]")); [now split|].
  destruct (JSON_parse (slice 6 line)) as [data|]; [|now split].
  destruct (first_delta data) as [[delta|]|]; try now split.
  destruct (truthy (Some delta)); cbn [negb]; [|now split].
  apply merge_hidden.
Qed.

Lemma process_lines_hidden (lines : list jsstring) :
  fst (process_lines false false lines) = false
  /\ forallb is_content_text (pieces_of (snd (process_lines false false lines))) = true.
Proof.
  induction lines as [|line lines IH]; simpl; [now split|].
  destruct (process_line_hidden line) as [H1 H2].
  destruct (process_line false false line) as [inR1 evs1]; simpl in *; subst inR1.
  destruct IH as [H3 H4].
  destruct (process_lines false false lines) as [inR2 evs2]; simpl in *.
  split; [assumption|].
  now rewrite pieces_of_app, forallb_app, H2, H4.
Qed.

(** What was appended to [output] is what the written delta carries as
    its content. *)
Lemma merge_written (show inR : bool) (data delta d : json) (ps : list piece) :
  first_delta data = Some (Some delta) ->
  In (Merged d ps) (snd (merge show inR data delta)) ->
  output_text ps <> [] ->
  delta_content d = Some (JStr (output_text ps)).
Proof.
  intros Hpath; unfold merge.
  destruct (append_reasoning show inR (get delta (js "reasoning_content")))
    as [inR1 [ps1|]] eqn:E1; [|intros []].
  destruct (append_content inR1 (get delta (js "content")))
    as [inR2 [ps2|]] eqn:E2; [|intros []].
  cbn [snd In]. intros [Heq|[]] Hne.
  injection Heq as <- <-.
  assert (Ht : match output_text (ps1 ++ ps2) with [] => false | _ :: _ => true end
               = true).
  { destruct (output_text (ps1 ++ ps2)); [contradiction|reflexivity]. }
  cbn [truthy]; rewrite Ht.
  destruct delta as [| | | | |dprops];
    try (exfalso; apply Hne;
         rewrite !(get_named _ (js "reasoning_content")) in E1 by reflexivity;
         rewrite !(get_named _ (js "content")) in E2 by reflexivity;
         unfold append_reasoning in E1; unfold append_content in E2;
         injection E1 as _ <-; injection E2 as _ <-; reflexivity).
  unfold delta_content. cbn [set_content delete_reasoning_content].
  rewrite (with_delta_read _ _ _ Hpath).
  cbn [get_opt get].
  rewrite obj_get_delete_other by discriminate.
  now apply obj_get_set.
Qed.

Lemma process_line_written (show inR : bool) (line : jsstring) (d : json)
  (ps : list piece) :
  In (Merged d ps) (snd (process_line show inR line)) ->
  output_text ps <> [] ->
  delta_content d = Some (JStr (output_text ps)).
Proof.
  unfold process_line.
  destruct (startsWith line (js "data: ")); cbn [negb]; [|intros []].
  destruct (includes line (js "[DONE]")); [intros [|[]]; discriminate|].
  destruct (JSON_parse (slice 6 line)) as [data|]; [|intros []].
  destruct (first_delta data) as [[delta|]|] eqn:E;
    [|intros [|[]]; discriminate|intros []].
  destruct (truthy (Some delta)); cbn [negb]; [|intros [|[]]; discriminate].
  now apply merge_written.
Qed.

Lemma process_lines_written (show : bool) (lines : list jsstring) (inR : bool)
  (d : json) (ps : list piece) :
  In (Merged d ps) (snd (process_lines show inR lines)) ->
  output_text ps <> [] ->
  delta_content d = Some (JStr (output_text ps)).
Proof.
  revert inR; induction lines as [|line lines IH]; intros inR; simpl; [intros []|].
  pose proof (process_line_written show inR line d ps) as H1.
  destruct (process_line show inR line) as [inR1 evs1]; simpl in H1.
  specialize (IH inR1).
  destruct (process_lines show inR1 lines) as [inR2 evs2]; simpl in *.
  intros Hin; apply in_app_or in Hin as [Hin|Hin]; auto.
Qed.

Lemma feed_inReasoning (show : bool) (chunks : list (list byte)) :
  inReasoning (fst (feed show stream_start chunks))
  = fst (process_lines show false (lines_of chunks)).
Proof.
  unfold lines_of.
  rewrite feed_as_text, feed_text_concat by reflexivity.
  unfold on_text; simpl.
  destruct (process_lines show false
              (removelast (split LF (List.concat (map Buffer_toString chunks)))));
    reflexivity.
Qed.

End Spans.

(** C2 as stated fails where a stream ends inside a span: the opening
    marker is written and no closing marker follows it. *)
Lemma span_left_open_at_stream_end :
  pieces_of (@transcode ExampleRuntime true [reasoning_only])
  = [Opening; ReasoningText (js "hm")]
  /\ every_opening_closed (pieces_of (@transcode ExampleRuntime true [reasoning_only]))
     = false.
Proof. split; vm_compute; reflexivity. Qed.

(** Why the fragments must be printable: a reasoning fragment without a
    string form sets [inReasoning], throws before anything is written, and
    the next content fragment closes a span that was never opened. *)
Example closing_without_opening :
  pieces_of (@transcode ExampleRuntime true [unprintable_then_content])
  = [Closing; ContentText (js "x")].
Proof. vm_compute; reflexivity. Qed.

(** C2, amended.  For a stream whose reasoning and content fragments can
    be printed (strings always can):

    - the pieces written follow the discipline of a span: markers
      alternate starting with an opening one, reasoning text stands inside
      a span and ordinary content outside, and the state reached is
      [inReasoning] at the end of the stream;
    - every marker stands right before the text it announces: an opening
      marker right before a reasoning text, a closing marker right before
      an ordinary content text, which by the discipline is the first
      content after the span; no marker is written on its own or at the
      end of the stream;
    - the texts written are the fragments of the stream, all of them, in
      their order: nothing but markers is added;
    - the stream ends inside a span exactly when its last fragment is a
      reasoning text, that is, when no ordinary content arrived after the
      last reasoning; and exactly then an opening marker is left without
      a closing one: the span is left open;
    - with reasoning hidden nothing but ordinary content is written;
    - every delta written carries as its content the text of the pieces
      appended for it. *)
Theorem reasoning_span_discipline {R : Runtime} (show : bool)
  (chunks : list (list byte)) :
  Forall (fun line => fragments_printable line = true) (lines_of chunks) ->
  span_run false (pieces_of (transcode show chunks))
  = Some (inReasoning (fst (feed show stream_start chunks)))
  /\ markers_placed (pieces_of (transcode show chunks)) = true
  /\ filter is_text (pieces_of (transcode show chunks))
     = fragments_of show (lines_of chunks)
  /\ inReasoning (fst (feed show stream_start chunks))
     = ends_inside false (fragments_of show (lines_of chunks))
  /\ every_opening_closed (pieces_of (transcode show chunks))
     = negb (inReasoning (fst (feed show stream_start chunks)))
  /\ (show = false ->
      forallb is_content_text (pieces_of (transcode show chunks)) = true
      /\ inReasoning (fst (feed show stream_start chunks)) = false)
  /\ (forall data ps,
        In (Merged data ps) (transcode show chunks) ->
        output_text ps <> [] ->
        delta_content data = Some (JStr (output_text ps))).
Proof.
  intros H.
  rewrite feed_inReasoning, transcode_lines.
  pose proof (process_lines_span show (lines_of chunks) false H) as Hs.
  destruct (process_lines_placed show (lines_of chunks) false H) as [Hm Hf].
  split; [exact Hs|].
  split; [exact Hm|].
  split; [exact Hf|].
  split; [rewrite <- Hf; now apply span_run_ends|].
  split; [now apply (span_run_closed _ false)|].
  split.
  - intros ->. destruct (process_lines_hidden (lines_of chunks)); now split.
  - intros data ps. apply process_lines_written.
Qed.

Lemma reasoning_span_discipline_witness :
  Forall (fun line => @fragments_printable ExampleRuntime line = true)
    (lines_of [reopened_span])
  /\ pieces_of (@transcode ExampleRuntime true [reopened_span])
     = [ Opening; ReasoningText (js "a"); ReasoningText (js "b");
         Closing; ContentText (js "c"); Opening; ReasoningText (js "d") ]
  /\ markers_placed (pieces_of (@transcode ExampleRuntime true [reopened_span]))
     = true
  /\ inReasoning (fst (@feed ExampleRuntime true stream_start [reopened_span]))
     = ends_inside false (@fragments_of ExampleRuntime true (lines_of [reopened_span]))
  /\ every_opening_closed (pieces_of (@transcode ExampleRuntime true [reopened_span]))
     = negb (inReasoning (fst (@feed ExampleRuntime true stream_start [reopened_span]))).
Proof.
  assert (H : Forall (fun line => @fragments_printable ExampleRuntime line = true)
                (lines_of [reopened_span])).
  { repeat constructor. }
  split; [exact H|].
  split; [vm_compute; reflexivity|].
  pose proof (@reasoning_span_discipline ExampleRuntime true [reopened_span] H)
    as (_ & Hm & _ & He & Hc & _).
  split; [exact Hm|]. split; [exact He|exact Hc].
Defined.

(** ** The sentinel (C4, C9) and unparseable lines (C5) *)

Section Lines.

Context {R : Runtime}.

(** Leaving out a line that writes nothing and keeps the state changes
    nothing; a line that writes one event and keeps the state adds that
    event where it stands. *)
Lemma process_lines_insert (show : bool) (line : jsstring) (evs : list out_event)
  (before after : list jsstring) (inR : bool) :
  (forall b, process_line show b line = (b, evs)) ->
  process_lines show inR (before ++ line :: after)
  = (fst (process_lines show inR (before ++ after)),
     snd (process_lines show inR before)
     ++ evs
     ++ snd (process_lines show (fst (process_lines show inR before)) after)).
Proof.
  intros H.
  rewrite !process_lines_app; simpl.
  rewrite H.
  destruct (process_lines show inR before) as [inR1 evs1]; simpl.
  destruct (process_lines show inR1 after) as [inR2 evs2]; reflexivity.
Qed.

End Lines.

Section Sentinel.

Context {R : Runtime}.

Lemma sentinel_line (show inR : bool) (line : jsstring) :
  startsWith line (js "data: ") = true ->
  includes line (js "[DONE]") = true ->
  process_line show inR line = (inR, [Sentinel]).
Proof. unfold process_line; now intros -> ->. Qed.

Lemma unparseable_line (show inR : bool) (line : jsstring) :
  startsWith line (js "data: ") = true ->
  includes line (js "[DONE]") = false ->
  JSON_parse (slice 6 line) = None ->
  process_line show inR line = (inR, []).
Proof. unfold process_line; now intros -> -> ->. Qed.

End Sentinel.

(** C4 as stated fails on lines the handler takes for the sentinel without
    their being it: an event whose content mentions [DONE], and the
    sentinel of a stream that ends its lines with CR LF.  Both are answered
    by the fixed text of line 135, which is not the line. *)
Lemma sentinel_line_not_passed_through :
  (map (@written ExampleRuntime)
     (snd (@process_line ExampleRuntime false false done_inside_content))
   = [js "data: [DONE]" ++ [LF; LF]]
   /\ jsstring_eqb (js "data: [DONE]" ++ [LF; LF])
        (done_inside_content ++ [LF; LF]) = false)
  /\ (map (@written ExampleRuntime)
        (snd (@process_line ExampleRuntime false false done_with_carriage_return))
      = [js "data: [DONE]" ++ [LF; LF]]
      /\ jsstring_eqb (js "data: [DONE]" ++ [LF; LF])
           (done_with_carriage_return ++ [LF; LF]) = false).
Proof. repeat split; vm_compute; reflexivity. Qed.

(** C4, amended.  A line that starts with [data: ] and contains [[DONE]]
    is answered by one write of the fixed text [data: [DONE]] and two line
    feeds, which is the line itself, unmodified, when the line is exactly
    [data: [DONE]]; the state is untouched and the loop goes on: the lines
    before and after it are handled as if it were not there, and each such
    line gets a write of its own. *)
Theorem sentinel_forwarded {R : Runtime} (show inR : bool) (line : jsstring)
  (before after : list jsstring) :
  startsWith line (js "data: ") = true ->
  includes line (js "[DONE]") = true ->
  map written (snd (process_lines show inR (before ++ line :: after)))
  = map written (snd (process_lines show inR before))
    ++ [js "data: [DONE]" ++ [LF; LF]]
    ++ map written
         (snd (process_lines show (fst (process_lines show inR before)) after))
  /\ fst (process_lines show inR (before ++ line :: after))
     = fst (process_lines show inR (before ++ after))
  /\ (line = js "data: [DONE]" ->
      map written (snd (process_line show inR line)) = [line ++ [LF; LF]])
  /\ (forall chunks,
        lines_of chunks = before ++ line :: after ->
        transcode show chunks
        = snd (process_lines show false before)
          ++ [Sentinel]
          ++ snd (process_lines show (fst (process_lines show false before)) after)).
Proof.
  intros Hp Hd.
  assert (H : forall b, process_line show b line = (b, [Sentinel]))
    by (intros b; now apply sentinel_line).
  repeat split.
  - rewrite (process_lines_insert show line [Sentinel]) by exact H.
    cbn [snd]. now rewrite !map_app.
  - now rewrite (process_lines_insert show line [Sentinel]) by exact H.
  - intros ->. now rewrite H.
  - intros chunks Hl.
    rewrite transcode_lines, Hl.
    now rewrite (process_lines_insert show line [Sentinel]) by exact H.
Qed.

Lemma sentinel_forwarded_witness :
  startsWith (js "data: [DONE]") (js "data: ") = true
  /\ includes (js "data: [DONE]") (js "[DONE]") = true
  /\ fst (@process_lines ExampleRuntime true true
            ([js "data: [DONE]"] ++ js "data: [DONE]" :: [js "data: [DONE]"]))
     = fst (@process_lines ExampleRuntime true true
              ([js "data: [DONE]"] ++ [js "data: [DONE]"])).
Proof.
  split; [reflexivity|]. split; [reflexivity|].
  exact (proj1 (proj2 (@sentinel_forwarded ExampleRuntime true true
                         (js "data: [DONE]") [js "data: [DONE]"] [js "data: [DONE]"]
                         eq_refl eq_refl))).
Defined.

(** C9: whatever else a line that starts with [data: ] holds, once it
    contains [[DONE]] the answer is the one write of the literal
    [data: [DONE]] event: the payload is not parsed and nothing of it is
    written, and [inReasoning] stays as it was. *)
Theorem sentinel_by_substring {R : Runtime} (show inR : bool) (line : jsstring) :
  startsWith line (js "data: ") = true ->
  includes line (js "[DONE]") = true ->
  process_line show inR line = (inR, [Sentinel])
  /\ map written (snd (process_line show inR line)) = [js "data: [DONE]" ++ [LF; LF]].
Proof.
  intros Hp Hd. rewrite (sentinel_line show inR line Hp Hd). now split.
Qed.

Lemma sentinel_by_substring_witness :
  startsWith done_inside_content (js "data: ") = true
  /\ includes done_inside_content (js "[DONE]") = true
  /\ (exists data, JSON_parse (slice 6 done_inside_content) = Some data)
  /\ @process_line ExampleRuntime true false done_inside_content = (false, [Sentinel]).
Proof.
  split; [reflexivity|]. split; [reflexivity|].
  split; [eexists; vm_compute; reflexivity|].
  exact (proj1 (@sentinel_by_substring ExampleRuntime true false done_inside_content
                  eq_refl eq_refl)).
Defined.

(** C5 as stated fails on an unparseable payload that contains [[DONE]]:
    the line is not dropped, the sentinel is written for it. *)
Lemma unparseable_line_with_done_is_answered :
  startsWith broken_with_done (js "data: ") = true
  /\ JSON_parse (slice 6 broken_with_done) = None
  /\ map (@written ExampleRuntime)
       (snd (@process_line ExampleRuntime false false broken_with_done))
     = [js "data: [DONE]" ++ [LF; LF]].
Proof. repeat split; vm_compute; reflexivity. Qed.

(** C5, amended.  A line that starts with [data: ], does not contain
    [[DONE]] and whose payload [JSON.parse] rejects writes nothing and
    leaves [inReasoning] alone; the stream is handled as if the line were
    not in it. *)
Theorem unparseable_line_dropped {R : Runtime} (show inR : bool) (line : jsstring)
  (before after : list jsstring) :
  startsWith line (js "data: ") = true ->
  includes line (js "[DONE]") = false ->
  JSON_parse (slice 6 line) = None ->
  process_line show inR line = (inR, [])
  /\ process_lines show inR (before ++ line :: after)
     = process_lines show inR (before ++ after)
  /\ (forall chunks,
        lines_of chunks = before ++ line :: after ->
        transcode show chunks = snd (process_lines show false (before ++ after))).
Proof.
  intros Hp Hd Hj.
  assert (H : forall b, process_line show b line = (b, []))
    by (intros b; now apply unparseable_line).
  assert (E : forall b, process_lines show b (before ++ line :: after)
                        = process_lines show b (before ++ after)).
  { intros b.
    rewrite (process_lines_insert show line []) by exact H.
    rewrite process_lines_app. reflexivity. }
  repeat split.
  - apply H.
  - apply E.
  - intros chunks Hl. now rewrite transcode_lines, Hl, E.
Qed.

Lemma unparseable_line_dropped_witness :
  startsWith broken_line (js "data: ") = true
  /\ includes broken_line (js "[DONE]") = false
  /\ JSON_parse (slice 6 broken_line) = None
  /\ @process_line ExampleRuntime true true broken_line = (true, []).
Proof.
  split; [reflexivity|]. split; [reflexivity|]. split; [reflexivity|].
  exact (proj1 (@unparseable_line_dropped ExampleRuntime true true broken_line [] []
                  eq_refl eq_refl eq_refl)).
Defined.

(** ** The model resolver (C7) *)

Section Resolver.

Context {R : Runtime}.

Lemma MODEL_MAP_ids_not_empty (name id : jsstring) :
  table_get MODEL_MAP name = Some id -> id <> [].
Proof.
  unfold MODEL_MAP; cbn [table_get].
  repeat (destruct (jsstring_eqb _ name);
          [intros H; injection H as <-; discriminate|]).
  discriminate.
Qed.

(** An exact key of the table gets the table's value, whatever the
    keyword rules would say. *)
Lemma resolve_exact_key (name id : jsstring) :
  table_get MODEL_MAP name = Some id -> resolve name = ModelId id.
Proof.
  intros H; unfold resolve, MODEL_MAP_get; rewrite H.
  pose proof (MODEL_MAP_ids_not_empty _ _ H) as Hne.
  destruct id; [contradiction|reflexivity].
Qed.

(** A name that is neither a key of the table nor a member of
    [Object.prototype] goes through the keyword rules, which always
    answer. *)
Lemma resolve_other_name (name : jsstring) :
  table_get MODEL_MAP name = None ->
  existsb (jsstring_eqb name) Object_prototype = false ->
  resolve name = ModelId (resolveFallback name).
Proof.
  intros H1 H2; unfold resolve, MODEL_MAP_get; now rewrite H1, H2.
Qed.

(** Every name that is not a member of [Object.prototype] resolves to a
    backend model id. *)
Lemma resolve_is_model_id (name : jsstring) :
  existsb (jsstring_eqb name) Object_prototype = false ->
  exists id, resolve name = ModelId id.
Proof.
  intros H.
  destruct (table_get MODEL_MAP name) as [id|] eqn:E.
  - exists id. now apply resolve_exact_key.
  - exists (resolveFallback name). now apply resolve_other_name.
Qed.

Lemma resolve_inherited (name : jsstring) :
  table_get MODEL_MAP name = None ->
  existsb (jsstring_eqb name) Object_prototype = true ->
  resolve name = Inherited name.
Proof.
  intros H1 H2; unfold resolve, MODEL_MAP_get; now rewrite H1, H2.
Qed.

Lemma resolve_value_string (name : jsstring) :
  resolve_value (JStr name) = Ok (resolve name).
Proof.
  unfold resolve_value, resolve; cbn [ToString].
  destruct (MODEL_MAP_get name) as [m|]; [|reflexivity].
  destruct (nim_truthy (Some m)); reflexivity.
Qed.

End Resolver.

(** C7, at an input where the code departs from it: for the model name
    [constructor] the lookup of line 88 finds the member that [MODEL_MAP]
    inherits from [Object.prototype], a function; it is truthy, so
    [resolveFallback] is not called, and [nimModel], the [model] of the
    backend request, is that function and not a backend model id. *)
Theorem resolve_constructor {R : Runtime} (t_id t_created : N) :
  resolve (js "constructor") = Inherited (js "constructor")
  /\ table_get MODEL_MAP (js "constructor") = None
  /\ option_map NimBody.model
       (posted (chat_completions t_id t_created request_constructor))
     = Some (Inherited (js "constructor")).
Proof. repeat split; vm_compute; reflexivity. Qed.

(** ** The route (C6, C8, C10) *)

Section Route.

Context {R : Runtime}.

Lemma get_messages_object (body v : json) :
  get body (js "messages") = Some v -> exists props, body = JObj props.
Proof.
  rewrite get_named by reflexivity.
  destruct body; try discriminate. intros _; eauto.
Qed.

(** The request is answered with the 400 envelope, and the backend is not
    called, whenever [messages] is missing, is not an array, or is an empty
    array. *)
Lemma messages_rejected (t_id t_created : N) (body : json) :
  body <> JNull ->
  nonempty_array (get body (js "messages")) = false ->
  chat_completions t_id t_created body = Respond messages_required.
Proof.
  intros Hb H.
  destruct body; try contradiction; unfold chat_completions;
    (destruct (get _ (js "messages")) as [[| | | |[|m ms]|]|];
     try reflexivity; try discriminate;
     cbn [Array_isArray negb]; now rewrite orb_true_r).
Qed.





(** With reasoning hidden the callback of [.map] answers for every choice
    that is not [null]. *)
Lemma map_choice_hidden (choice : json) :
  choice <> JNull ->
  exists c',
    map_choice false choice = Ok c'
    /\ get c' (js "message") = Some (assistant_message (content_or_empty choice)).
Proof.
  intros Hc. unfold map_choice, content_or_empty, assistant_message.
  destruct choice; try contradiction;
    (destruct (get_opt (get _ (js "message")) (js "reasoning_content"));
     cbn [andb bind];
     (eexists; split; [reflexivity|]);
     destruct (get _ (js "index")); reflexivity).
Qed.

Lemma map_choices_hidden (items : list json) :
  Forall (fun c => c <> JNull) items ->
  exists cs,
    map_choices false items = Ok cs
    /\ map (fun c => get c (js "message")) cs
       = map (fun c => Some (assistant_message (content_or_empty c))) items.
Proof.
  induction 1 as [|c items Hc _ IH]; [exists []; now split|].
  destruct (map_choice_hidden c Hc) as [c' [E1 E2]].
  destruct IH as [cs [E3 E4]].
  exists (c' :: cs). cbn [map_choices map]. rewrite E1, E3, E2, E4. now split.
Qed.



End Route.

(** C6 as stated fails for a caller who supplies [max_tokens: 0]: line 95
    replaces every falsy value by the default, so the backend is asked for
    4096 tokens. *)
Lemma zero_max_tokens_replaced :
  @is_ChatRequest request_zero_tokens = true
  /\ get request_zero_tokens (js "max_tokens") = Some (JNum (js "0"))
  /\ option_map NimBody.max_tokens
       (posted (@chat_completions ExampleRuntime 0 0 request_zero_tokens))
     = Some (JNum (js "4096")).
Proof. repeat split; vm_compute; reflexivity. Qed.

(** C6, amended.  For every ChatRequest (a non-empty [messages] array and,
    where present, a string [model], numeric [temperature] and
    [max_tokens], a boolean [stream]) the backend is called, with a body
    that holds the caller's messages unchanged; the caller's temperature,
    or 0.6 when there is none; the caller's [max_tokens] when there is one
    and it is not zero, and 4096 otherwise; and the caller's [stream], or
    [false] when there is none. *)
Theorem nimBody_defaults {R : Runtime} (t_id t_created : N) (body : json) :
  is_ChatRequest body = true ->
  exists b,
    posted (chat_completions t_id t_created body) = Some b
    /\ Some (NimBody.messages b) = get body (js "messages")
    /\ NimBody.temperature b
       = match get body (js "temperature") with
         | Some t => t
         | None => JNum (js "0.6")
         end
    /\ NimBody.max_tokens b
       = match get body (js "max_tokens") with
         | Some (JNum l) => if Number_isZero l then JNum (js "4096") else JNum l
         | _ => JNum (js "4096")
         end
    /\ NimBody.stream b
       = match get body (js "stream") with
         | Some (JBool s) => s
         | _ => false
         end.
Proof.
  unfold is_ChatRequest; intros H.
  apply andb_true_iff in H as [H Hs].
  apply andb_true_iff in H as [H Hm].
  apply andb_true_iff in H as [H Ht].
  apply andb_true_iff in H as [Hmsg Hmodel].
  destruct (get body (js "messages")) as [[| | | |[|m ms]|]|] eqn:Em;
    try discriminate.
  destruct (get_messages_object _ _ Em) as (props & ->).
  unfold chat_completions; rewrite Em.
  cbn [truthy Array_isArray length_is_zero negb orb].
  assert (Hr : exists nimModel,
             resolve_value match get (JObj props) (js "model") with
                           | Some x => x
                           | None => JStr (js "gpt-4o")
                           end = Ok nimModel).
  { destruct (get (JObj props) (js "model")) as [[| | |name| |]|];
      try discriminate; rewrite resolve_value_string; eauto. }
  destruct Hr as (nimModel & ->).
  exists (build_nimBody nimModel (JArr (m :: ms))
            (get (JObj props) (js "temperature"))
            (get (JObj props) (js "max_tokens"))
            (get (JObj props) (js "stream"))).
  split; [destruct (truthy (get (JObj props) (js "stream"))); reflexivity|].
  split; [reflexivity|].
  unfold build_nimBody; cbn [NimBody.temperature NimBody.max_tokens NimBody.stream].
  destruct (get (JObj props) (js "temperature")) as [[| |t| | |]|]; try discriminate;
    destruct (get (JObj props) (js "max_tokens")) as [[| |l| | |]|]; try discriminate;
    destruct (get (JObj props) (js "stream")) as [[|s| | | |]|]; try discriminate;
    cbn [truthy]; try (destruct (Number_isZero l)); repeat split.
Qed.

Lemma nimBody_defaults_witness :
  is_ChatRequest request_gpt_4o = true
  /\ exists b,
       posted (@chat_completions ExampleRuntime 1 2 request_gpt_4o) = Some b
       /\ Some (NimBody.messages b) = get request_gpt_4o (js "messages")
       /\ NimBody.temperature b
          = match get request_gpt_4o (js "temperature") with
            | Some t => t
            | None => JNum (js "0.6")
            end
       /\ NimBody.max_tokens b
          = match get request_gpt_4o (js "max_tokens") with
            | Some (JNum l) =>
                if @Number_isZero ExampleRuntime l then JNum (js "4096") else JNum l
            | _ => JNum (js "4096")
            end
       /\ NimBody.stream b
          = match get request_gpt_4o (js "stream") with
            | Some (JBool s) => s
            | _ => false
            end.
Proof.
  split; [reflexivity|].
  exact (@nimBody_defaults ExampleRuntime 1 2 request_gpt_4o eq_refl).
Defined.

(** C8, at an input where the code departs from it: a body without
    [messages] is answered with status 400 and an envelope that holds
    [message] and [type] and no [code] (lines 80-85), where the two other
    envelopes of the file (lines 229-231 and 237-239) carry one. *)
Theorem missing_messages_envelope {R : Runtime} (t_id t_created : N) :
  chat_completions t_id t_created (JObj [])
  = Respond
      (Json 400
         (JObj [ (js "error",
                  JObj [ (js "message", JStr (js "messages array is required"));
                         (js "type", JStr (js "invalid_request_error")) ]) ]))
  /\ get_opt (get (JObj [ (js "error",
                           JObj [ (js "message", JStr (js "messages array is required"));
                                  (js "type", JStr (js "invalid_request_error")) ]) ])
                (js "error")) (js "code") = None
  /\ get_opt (match not_found with
              | Json _ payload => get payload (js "error")
              | _ => None
              end) (js "code") = Some (JNum (js "404")).
Proof. repeat split. Qed.



(** * Further properties of the code *)

(** ** The stream as a whole (lines 123-187) *)

Lemma split_without_separator (c : N) (s : jsstring) :
  ~ In c s -> split c s = [s].
Proof.
  induction s as [|x s IH]; simpl; [reflexivity|].
  intros H.
  destruct (x =? c) eqn:E.
  - apply N.eqb_eq in E. exfalso; apply H; now left.
  - rewrite IH; [reflexivity|]. intros Hin; apply H; now right.
Qed.

Lemma split_single_app (c : N) (l b : jsstring) :
  split c l = [l] -> ~ In c b -> split c (l ++ b) = [l ++ b].
Proof.
  intros Hl Hb; induction l as [|x l IH]; simpl in *.
  - now apply split_without_separator.
  - destruct (x =? c); [discriminate|].
    pose proof (split_not_nil c l) as Hne.
    destruct (split c l) as [|l0 ls]; [contradiction|].
    injection Hl as -> ->.
    now rewrite IH.
Qed.

Section WholeStream.

Context {R : Runtime}.

Lemma feed_decoded (show : bool) (chunks : list (list byte)) :
  feed show stream_start chunks
  = on_text show stream_start (List.concat (map Buffer_toString chunks)).
Proof. now rewrite feed_as_text, feed_text_concat. Qed.

Lemma process_line_not_data (show inR : bool) (line : jsstring) :
  is_data_line line = false -> process_line show inR line = (inR, []).
Proof. unfold is_data_line, process_line; now intros ->. Qed.

Lemma process_lines_filter (show : bool) (lines : list jsstring) (inR : bool) :
  process_lines show inR lines
  = process_lines show inR (filter is_data_line lines).
Proof.
  revert inR; induction lines as [|line lines IH]; intros inR; simpl; [reflexivity|].
  destruct (is_data_line line) eqn:E; simpl.
  - destruct (process_line show inR line) as [inR1 evs1]. now rewrite IH.
  - rewrite (process_line_not_data show inR line E). rewrite IH.
    now destruct (process_lines show inR (filter is_data_line lines)).
Qed.

Lemma merge_at_most_one (show inR : bool) (data delta : json) :
  (List.length (snd (merge show inR data delta)) <= 1)%nat.
Proof.
  unfold merge.
  destruct (append_reasoning show inR (get delta (js "reasoning_content")))
    as [inR1 [ps1|]]; [|simpl; lia].
  destruct (append_content inR1 (get delta (js "content"))) as [inR2 [ps2|]];
    simpl; lia.
Qed.

Lemma process_line_at_most_one (show inR : bool) (line : jsstring) :
  (List.length (snd (process_line show inR line)) <= 1)%nat.
Proof.
  unfold process_line.
  destruct (startsWith line (js "data: ")); cbn [negb]; [|simpl; lia].
  destruct (includes line (js "[DONE]")); [simpl; lia|].
  destruct (JSON_parse (slice 6 line)) as [data|]; [|simpl; lia].
  destruct (first_delta data) as [[delta|]|]; try (simpl; lia).
  destruct (truthy (Some delta)); cbn [negb]; [|simpl; lia].
  apply merge_at_most_one.
Qed.

Lemma process_lines_at_most_one (show : bool) (lines : list jsstring) (inR : bool) :
  (List.length (snd (process_lines show inR lines)) <= List.length lines)%nat.
Proof.
  revert inR; induction lines as [|line lines IH]; intros inR; simpl; [lia|].
  pose proof (process_line_at_most_one show inR line) as H1.
  destruct (process_line show inR line) as [inR1 evs1]; simpl in H1.
  specialize (IH inR1).
  destruct (process_lines show inR1 lines) as [inR2 evs2]; simpl in *.
  rewrite length_app. lia.
Qed.

End WholeStream.

(** X1: two deliveries of the same bytes in which no chunk ends inside a
    character leave the stream in the same state (the same [buffer], the
    same [inReasoning]) and produce the same writes. *)
Theorem chunking_on_character_boundaries {R : Runtime} (show : bool)
  (chunks1 chunks2 : list (list byte)) :
  Forall ends_on_character chunks1 ->
  Forall ends_on_character chunks2 ->
  List.concat chunks1 = List.concat chunks2 ->
  feed show stream_start chunks1 = feed show stream_start chunks2
  /\ map written (transcode show chunks1) = map written (transcode show chunks2).
Proof.
  intros H1 H2 He.
  assert (E : feed show stream_start chunks1 = feed show stream_start chunks2).
  { rewrite !feed_decoded, !toString_complete_chunks by assumption. now rewrite He. }
  split; [exact E|]. unfold transcode. now rewrite E.
Qed.

Lemma chunking_on_character_boundaries_witness :
  Forall ends_on_character [accent_head ++ accent_tail]
  /\ Forall ends_on_character
       [firstn 10 (accent_head ++ accent_tail); skipn 10 (accent_head ++ accent_tail)]
  /\ @feed ExampleRuntime true stream_start [accent_head ++ accent_tail]
     = @feed ExampleRuntime true stream_start
         [firstn 10 (accent_head ++ accent_tail); skipn 10 (accent_head ++ accent_tail)].
Proof.
  assert (H1 : Forall ends_on_character [accent_head ++ accent_tail])
    by (repeat constructor).
  assert (H2 : Forall ends_on_character
                 [firstn 10 (accent_head ++ accent_tail);
                  skipn 10 (accent_head ++ accent_tail)])
    by (repeat constructor).
  split; [exact H1|]. split; [exact H2|].
  exact (proj1 (@chunking_on_character_boundaries ExampleRuntime true _ _ H1 H2 eq_refl)).
Defined.

(** X2: lines that do not start with [data: ] (blank lines, comments,
    [event:] and [id:] fields, [data:] without the space) change nothing:
    the writes of a stream are those of its event lines alone, in their
    order, and there is at most one write for each of them. *)
Theorem only_data_lines_are_answered {R : Runtime} (show : bool)
  (chunks : list (list byte)) :
  transcode show chunks
  = snd (process_lines show false (filter is_data_line (lines_of chunks)))
  /\ (List.length (transcode show chunks)
      <= List.length (filter is_data_line (lines_of chunks)))%nat.
Proof.
  rewrite transcode_lines, process_lines_filter.
  split; [reflexivity|apply process_lines_at_most_one].
Qed.

(** X3: what follows the last line feed of a stream is never handled: a
    last chunk whose text holds no line feed adds no write, also when it
    completes an event whose first part is waiting in the buffer. *)
Theorem unterminated_tail_dropped {R : Runtime} (show : bool)
  (chunks : list (list byte)) (tail : list byte) :
  ~ In LF (Buffer_toString tail) ->
  transcode show (chunks ++ [tail]) = transcode show chunks.
Proof.
  intros H.
  rewrite !transcode_lines; unfold lines_of.
  rewrite map_app, concat_app; simpl; rewrite app_nil_r.
  rewrite split_app.
  rewrite (split_single_app LF _ _ (split_last_fixed LF _) H).
  now rewrite removelast_app, app_nil_r by discriminate.
Qed.

Lemma unterminated_tail_dropped_witness :
  ~ In LF (Buffer_toString content_line)
  /\ @transcode ExampleRuntime true ([reasoning_line ++ [x0a]] ++ [content_line])
     = @transcode ExampleRuntime true [reasoning_line ++ [x0a]].
Proof.
  assert (H : ~ In LF (Buffer_toString content_line)).
  { vm_compute. intuition discriminate. }
  split; [exact H|].
  exact (@unterminated_tail_dropped ExampleRuntime true [reasoning_line ++ [x0a]]
           content_line H).
Defined.

(** ** The merged delta (lines 147-179) *)

Lemma existsb_eqb_In (k : jsstring) (ks : list jsstring) :
  existsb (jsstring_eqb k) ks = true <-> In k ks.
Proof.
  rewrite existsb_exists; split.
  - intros (x & Hin & E). apply jsstring_eqb_eq in E. now subst.
  - intros Hin. exists k; split; [exact Hin|apply jsstring_eqb_refl].
Qed.

Lemma distinct_keys_NoDup (ks : list jsstring) :
  distinct_keys ks = true <-> NoDup ks.
Proof.
  induction ks as [|k ks IH]; simpl.
  - split; [constructor|reflexivity].
  - rewrite andb_true_iff, negb_true_iff, IH; split.
    + intros [Hn Hd]. constructor; [|exact Hd].
      intros Hin. apply existsb_eqb_In in Hin. congruence.
    + intros H; inversion H as [|x l Hn Hd]; subst. split; [|exact Hd].
      destruct (existsb (jsstring_eqb k) ks) eqn:E; [|reflexivity].
      apply existsb_eqb_In in E. contradiction.
Qed.

Lemma obj_get_In (props : list (jsstring * json)) (k : jsstring) (x : json) :
  obj_get props k = Some x -> In (k, x) props.
Proof.
  induction props as [|[k' v'] props IH]; simpl; [discriminate|].
  destruct (jsstring_eqb k' k) eqn:E.
  - apply jsstring_eqb_eq in E; subst. intros H; injection H as ->. now left.
  - intros H; right; now apply IH.
Qed.

Lemma obj_get_None (props : list (jsstring * json)) (k : jsstring) :
  obj_get props k = None <-> ~ In k (map fst props).
Proof.
  induction props as [|[k' v'] props IH]; simpl; [tauto|].
  destruct (jsstring_eqb k' k) eqn:E.
  - apply jsstring_eqb_eq in E; subst. split; [discriminate|tauto].
  - rewrite IH. split; [|tauto].
    intros Hn [->|Hin]; [|tauto].
    rewrite jsstring_eqb_refl in E; discriminate.
Qed.

Lemma obj_replace_keys (props : list (jsstring * json)) (k : jsstring) (x : json) :
  map fst (obj_replace props k x) = map fst props.
Proof.
  induction props as [|[k' v'] props IH]; simpl; [reflexivity|].
  destruct (jsstring_eqb k' k); simpl; [reflexivity|now rewrite IH].
Qed.

Lemma obj_replace_values (P : json -> bool) (props : list (jsstring * json))
  (k : jsstring) (x : json) :
  forallb (fun p => P (snd p)) props = true -> P x = true ->
  forallb (fun p => P (snd p)) (obj_replace props k x) = true.
Proof.
  intros Hp Hx; induction props as [|[k' v'] props IH]; simpl in *; [reflexivity|].
  apply andb_true_iff in Hp as [H1 H2].
  destruct (jsstring_eqb k' k); simpl; rewrite ?Hx, ?H1, ?H2; auto.
Qed.

(** A new key is put somewhere between the properties that were there. *)
Lemma obj_insert_index_split (props : list (jsstring * json)) (i : N)
  (k : jsstring) (x : json) :
  exists l1 l2, props = l1 ++ l2 /\ obj_insert_index props i k x = l1 ++ (k, x) :: l2.
Proof.
  induction props as [|[k' v'] props IH]; simpl.
  - now exists [], [].
  - destruct (array_index k') as [j|]; [destruct (j <? i)|].
    + destruct IH as (l1 & l2 & -> & ->). now exists ((k', v') :: l1), l2.
    + now exists [], ((k', v') :: props).
    + now exists [], ((k', v') :: props).
Qed.

Lemma obj_set_split (props : list (jsstring * json)) (k : jsstring) (x : json) :
  obj_has props k = false ->
  exists l1 l2, props = l1 ++ l2 /\ obj_set props k x = l1 ++ (k, x) :: l2.
Proof.
  intros H; unfold obj_set; rewrite H.
  destruct (array_index k) as [i|]; [apply obj_insert_index_split|].
  exists props, []. now rewrite app_nil_r.
Qed.

Lemma obj_has_false (props : list (jsstring * json)) (k : jsstring) :
  obj_has props k = false <-> ~ In k (map fst props).
Proof.
  unfold obj_has. rewrite <- obj_get_None.
  destruct (obj_get props k); split; congruence.
Qed.

Lemma NoDup_insert {A : Type} (l l' : list A) (a : A) :
  ~ In a (l ++ l') -> NoDup (l ++ l') -> NoDup (l ++ a :: l').
Proof.
  induction l as [|x l IH]; simpl; intros Hn Hd.
  - now constructor.
  - inversion Hd as [|y m Hx Hd']; subst.
    constructor.
    + intros Hin; apply in_app_or in Hin as [Hin|[->|Hin]].
      * apply Hx, in_or_app; now left.
      * apply Hn; now left.
      * apply Hx, in_or_app; now right.
    + apply IH; [|exact Hd']. intros Hin; apply Hn; now right.
Qed.

(** Setting a property keeps the keys distinct. *)
Lemma obj_set_NoDup (props : list (jsstring * json)) (k : jsstring) (x : json) :
  NoDup (map fst props) -> NoDup (map fst (obj_set props k x)).
Proof.
  intros Hd. destruct (obj_has props k) eqn:E.
  - unfold obj_set; rewrite E. now rewrite obj_replace_keys.
  - destruct (obj_set_split props k x E) as (l1 & l2 & Hp & ->).
    apply obj_has_false in E. subst props.
    rewrite map_app in *; simpl.
    apply NoDup_insert; [exact E|exact Hd].
Qed.

Lemma obj_set_values (P : json -> bool) (props : list (jsstring * json))
  (k : jsstring) (x : json) :
  forallb (fun p => P (snd p)) props = true -> P x = true ->
  forallb (fun p => P (snd p)) (obj_set props k x) = true.
Proof.
  intros Hp Hx. destruct (obj_has props k) eqn:E.
  - unfold obj_set; rewrite E. now apply obj_replace_values.
  - destruct (obj_set_split props k x E) as (l1 & l2 & -> & ->).
    rewrite forallb_app in *; simpl.
    apply andb_true_iff in Hp as [H1 H2]. now rewrite H1, Hx, H2.
Qed.

Lemma obj_set_well_formed (props : list (jsstring * json)) (k : jsstring) (x : json) :
  well_formed (JObj props) = true -> well_formed x = true ->
  well_formed (JObj (obj_set props k x)) = true.
Proof.
  cbn [well_formed]; intros H Hx.
  apply andb_true_iff in H as [Hd Hv].
  apply andb_true_iff; split.
  - apply distinct_keys_NoDup, obj_set_NoDup. now apply distinct_keys_NoDup.
  - now apply (obj_set_values well_formed).
Qed.

(** Deleting a key of an object with distinct keys leaves no property of
    that name. *)
Lemma obj_get_delete_same (props : list (jsstring * json)) (k : jsstring) :
  NoDup (map fst props) -> obj_get (obj_delete props k) k = None.
Proof.
  induction props as [|[k' v'] props IH]; simpl; [reflexivity|].
  intros H; inversion H as [|x l Hn Hd]; subst.
  destruct (jsstring_eqb k' k) eqn:E.
  - apply jsstring_eqb_eq in E; subst. now apply obj_get_None.
  - simpl. rewrite E. now apply IH.
Qed.

Lemma obj_delete_keys (props : list (jsstring * json)) (k k' : jsstring) :
  In k' (map fst (obj_delete props k)) -> In k' (map fst props).
Proof.
  induction props as [|[k1 v1] props IH]; simpl; [tauto|].
  destruct (jsstring_eqb k1 k); simpl; [tauto|].
  intros [H|H]; [now left|right; now apply IH].
Qed.

Lemma obj_delete_NoDup (props : list (jsstring * json)) (k : jsstring) :
  NoDup (map fst props) -> NoDup (map fst (obj_delete props k)).
Proof.
  induction props as [|[k' v'] props IH]; simpl; [auto|].
  intros H; inversion H as [|x l Hn Hd]; subst.
  destruct (jsstring_eqb k' k); [exact Hd|].
  simpl; constructor; [|now apply IH].
  intros Hin; apply Hn. now apply obj_delete_keys in Hin.
Qed.

Lemma forallb_rev {A : Type} (f : A -> bool) (l : list A) :
  forallb f (rev l) = forallb f l.
Proof.
  induction l as [|x l IH]; simpl; [reflexivity|].
  rewrite forallb_app, IH; simpl. now rewrite andb_true_r, andb_comm.
Qed.

(** [JSON.parse] builds well-formed values. *)
Lemma begin_value_well_formed (stack : list frame) (t : token) (st : parse_state) :
  forallb well_formed_frame stack = true ->
  begin_value stack t = Some st ->
  well_formed_state st = true.
Proof.
  intros Hs; destruct t; simpl; try discriminate;
    intros H; injection H as <-; simpl; exact Hs.
Qed.

Lemma parse_step_well_formed (st st' : parse_state) (t : token) :
  well_formed_state st = true ->
  parse_step st t = Some st' ->
  well_formed_state st' = true.
Proof.
  destruct st as [stack|stack|stack|props stack|props k stack|v stack];
    cbn [well_formed_state parse_step].
  - apply begin_value_well_formed.
  - intros Hs. destruct t;
      try (apply begin_value_well_formed; simpl; exact Hs).
    intros H; injection H as <-; simpl; exact Hs.
  - intros Hs. destruct t; try discriminate;
      intros H; injection H as <-; simpl; exact Hs.
  - intros Hs. destruct t; try discriminate.
    intros H; injection H as <-. exact Hs.
  - intros Hs. destruct t; try discriminate.
    intros H; injection H as <-. exact Hs.
  - intros Hs. apply andb_true_iff in Hs as [Hv Hs].
    destruct stack as [|[done|props k] stack]; [discriminate| |];
      cbn [forallb well_formed_frame] in Hs;
      apply andb_true_iff in Hs as [Hf Hs];
      destruct t; try discriminate; intros H; injection H as <-.
    + cbn [well_formed_state well_formed].
      rewrite forallb_app, forallb_rev; cbn [forallb]. now rewrite Hv, Hf, Hs.
    + cbn [well_formed_state forallb well_formed_frame]. now rewrite Hv, Hf, Hs.
    + cbn [well_formed_state]. now rewrite (obj_set_well_formed _ _ _ Hf Hv), Hs.
    + cbn [well_formed_state]. now rewrite (obj_set_well_formed _ _ _ Hf Hv), Hs.
Qed.

Lemma parse_from_well_formed (ts : list token) (st : parse_state) (v : json) :
  well_formed_state st = true ->
  parse_from st ts = Some v ->
  well_formed v = true.
Proof.
  revert st; induction ts as [|t ts IH]; intros st Hs; simpl.
  - destruct st as [| | | | |x [|f stack]]; try discriminate.
    intros H; injection H as <-.
    cbn [well_formed_state] in Hs. now apply andb_true_iff in Hs as [Hv _].
  - destruct (parse_step st t) as [st'|] eqn:E; [|discriminate].
    apply IH. now apply (parse_step_well_formed st st' t).
Qed.

Lemma JSON_parse_well_formed (text : jsstring) (v : json) :
  JSON_parse text = Some v -> well_formed v = true.
Proof.
  unfold JSON_parse. destruct (lex_from LTop text) as [ts|]; [|discriminate].
  now apply parse_from_well_formed.
Qed.

(** What is read from a well-formed value is well formed. *)
Lemma get_well_formed (v x : json) (k : jsstring) :
  well_formed v = true -> get v k = Some x -> well_formed x = true.
Proof.
  destruct v as [| | |s|items|props]; cbn [get well_formed]; try discriminate.
  - destruct (jsstring_eqb k (js "length")); [intros _ H; now injection H as <-|].
    destruct (array_index k) as [i|]; [|discriminate].
    destruct (nth_error s (N.to_nat i)); simpl; [|discriminate].
    intros _ H; now injection H as <-.
  - destruct (jsstring_eqb k (js "length")); [intros _ H; now injection H as <-|].
    destruct (array_index k) as [i|]; [|discriminate].
    intros Hw Hn. apply nth_error_In in Hn.
    now apply (proj1 (forallb_forall _ _) Hw).
  - intros Hw Hg. apply andb_true_iff in Hw as [_ Hw].
    apply obj_get_In in Hg.
    now apply (proj1 (forallb_forall _ _) Hw (k, x)).
Qed.

Lemma first_delta_well_formed (data delta : json) :
  well_formed data = true ->
  first_delta data = Some (Some delta) ->
  well_formed delta = true.
Proof.
  intros Hw H.
  destruct (first_delta_path _ _ H) as (props & choices & fprops & -> & Hc & H0 & Hd & _).
  assert (Hcw : well_formed choices = true)
    by (apply (get_well_formed (JObj props) choices (js "choices") Hw); exact Hc).
  assert (Hfw : well_formed (JObj fprops) = true)
    by (apply (get_well_formed choices _ (js "0") Hcw); exact H0).
  apply (get_well_formed (JObj fprops) delta (js "delta") Hfw); exact Hd.
Qed.

(** [data] printed after the merge shows, where the delta was, whatever
    the merge made of it. *)
Lemma with_delta_read_any (data delta x : json) :
  first_delta data = Some (Some delta) ->
  delta_of (with_delta data x) = Some x.
Proof.
  intros H.
  destruct (first_delta_path _ _ H) as (props & choices & fprops & -> & Hc & H0 & Hd & Hk).
  unfold delta_of, with_delta.
  rewrite (get_named (JObj props) (js "choices")) by reflexivity.
  rewrite Hc, H0.
  rewrite (get_put_obj _ _ _ (obj_get_has _ _ _ Hc)).
  destruct Hk as [(items & ->)|(cprops & ->)].
  - cbn [get_opt put].
    change (array_index (js "0")) with (Some 0).
    cbn [N.to_nat firstn skipn app].
    rewrite get_0. cbn [nth_error get_opt get].
    now apply obj_get_replace, (obj_get_has _ _ delta).
  - cbn [get_opt put].
    rewrite get_0.
    rewrite get_0 in H0.
    rewrite (obj_get_replace _ _ _ (obj_get_has _ _ _ H0)).
    cbn [get_opt get].
    now apply obj_get_replace, (obj_get_has _ _ delta).
Qed.

Lemma set_content_well_formed (delta v : json) :
  well_formed delta = true -> well_formed v = true ->
  well_formed (set_content delta v) = true.
Proof.
  destruct delta; cbn [set_content]; auto. apply obj_set_well_formed.
Qed.

Lemma deleted_reasoning_is_gone (x : json) :
  well_formed x = true ->
  get_opt (Some (delete_reasoning_content x)) (js "reasoning_content") = None.
Proof.
  destruct x as [| | | | |props]; try reflexivity.
  cbn [delete_reasoning_content get_opt get well_formed]; intros H.
  apply andb_true_iff in H as [Hd _].
  now apply obj_get_delete_same, distinct_keys_NoDup.
Qed.

Lemma obj_replace_same (props : list (jsstring * json)) (k : jsstring) (x : json) :
  obj_get props k = Some x -> obj_replace props k x = props.
Proof.
  induction props as [|[k' v'] props IH]; simpl; [reflexivity|].
  destruct (jsstring_eqb k' k); [intros H; now injection H as ->|].
  intros H; now rewrite IH.
Qed.

Lemma obj_delete_absent (props : list (jsstring * json)) (k : jsstring) :
  obj_get props k = None -> obj_delete props k = props.
Proof.
  induction props as [|[k' v'] props IH]; simpl; [reflexivity|].
  destruct (jsstring_eqb k' k); [discriminate|].
  intros H; now rewrite IH.
Qed.

(** Putting back the delta that was read gives the payload back. *)
Lemma with_delta_same (data delta : json) :
  first_delta data = Some (Some delta) -> with_delta data delta = data.
Proof.
  intros H.
  destruct (first_delta_path _ _ H) as (props & choices & fprops & -> & Hc & H0 & Hd & Hk).
  unfold with_delta.
  rewrite (get_named (JObj props) (js "choices")) by reflexivity.
  rewrite Hc, H0.
  cbn [put]. rewrite (obj_replace_same _ _ _ Hd).
  destruct Hk as [(items & ->)|(cprops & ->)]; cbn [put].
  - change (array_index (js "0")) with (Some 0).
    cbn [N.to_nat firstn skipn app].
    now rewrite (obj_replace_same _ _ _ Hc).
  - rewrite get_0 in H0.
    now rewrite (obj_replace_same _ _ _ H0), (obj_replace_same _ _ _ Hc).
Qed.

Section MergedDelta.

Context {R : Runtime}.

Lemma merge_strips_reasoning (show inR : bool) (data delta d : json)
  (ps : list piece) :
  well_formed data = true ->
  first_delta data = Some (Some delta) ->
  In (Merged d ps) (snd (merge show inR data delta)) ->
  get_opt (delta_of d) (js "reasoning_content") = None.
Proof.
  intros Hw Hpath; unfold merge.
  pose proof (first_delta_well_formed _ _ Hw Hpath) as Hdw.
  destruct (append_reasoning show inR (get delta (js "reasoning_content")))
    as [inR1 [ps1|]]; [|intros []].
  destruct (append_content inR1 (get delta (js "content")))
    as [inR2 [ps2|]]; [|intros []].
  cbn [snd In]. intros [Heq|[]].
  injection Heq as <- <-.
  rewrite (with_delta_read_any _ _ _ Hpath).
  apply deleted_reasoning_is_gone.
  cbn [truthy].
  destruct (output_text (ps1 ++ ps2)); [|now apply set_content_well_formed].
  destruct (negb (truthy (get delta (js "content")))
            && negb (truthy (get delta (js "reasoning_content"))));
    [exact Hdw|now apply set_content_well_formed].
Qed.

Lemma process_line_strips_reasoning (show inR : bool) (line : jsstring) (d : json)
  (ps : list piece) :
  In (Merged d ps) (snd (process_line show inR line)) ->
  get_opt (delta_of d) (js "reasoning_content") = None.
Proof.
  unfold process_line.
  destruct (startsWith line (js "data: ")); cbn [negb]; [|intros []].
  destruct (includes line (js "[DONE]")); [intros [|[]]; discriminate|].
  destruct (JSON_parse (slice 6 line)) as [data|] eqn:Ep; [|intros []].
  destruct (first_delta data) as [[delta|]|] eqn:E;
    [|intros [|[]]; discriminate|intros []].
  destruct (truthy (Some delta)); cbn [negb]; [|intros [|[]]; discriminate].
  apply merge_strips_reasoning; [|exact E].
  now apply (JSON_parse_well_formed (slice 6 line)).
Qed.

Lemma process_lines_strips_reasoning (show : bool) (lines : list jsstring)
  (inR : bool) (d : json) (ps : list piece) :
  In (Merged d ps) (snd (process_lines show inR lines)) ->
  get_opt (delta_of d) (js "reasoning_content") = None.
Proof.
  revert inR; induction lines as [|line lines IH]; intros inR; simpl; [intros []|].
  pose proof (process_line_strips_reasoning show inR line d ps) as H1.
  destruct (process_line show inR line) as [inR1 evs1]; simpl in H1.
  specialize (IH inR1).
  destruct (process_lines show inR1 lines) as [inR2 evs2]; simpl in *.
  intros Hin; apply in_app_or in Hin as [Hin|Hin]; auto.
Qed.

End MergedDelta.

(** X4: no delta that went through the merge is written with a
    [reasoning_content] field (line 177), whatever the backend sent in it
    and whether reasoning is shown or hidden. *)
Theorem reasoning_field_never_written {R : Runtime} (show : bool)
  (chunks : list (list byte)) (d : json) (ps : list piece) :
  In (Merged d ps) (transcode show chunks) ->
  get_opt (delta_of d) (js "reasoning_content") = None.
Proof. rewrite transcode_lines. apply process_lines_strips_reasoning. Qed.

Lemma reasoning_field_never_written_witness :
  exists d ps,
    In (Merged d ps) (@transcode ExampleRuntime false [reasoning_only])
    /\ get_opt (delta_of d) (js "reasoning_content") = None.
Proof.
  eexists; eexists.
  assert (H : In (Merged _ _) (@transcode ExampleRuntime false [reasoning_only]))
    by (vm_compute; left; reflexivity).
  split; [exact H|].
  exact (@reasoning_field_never_written ExampleRuntime false [reasoning_only] _ _ H).
Defined.

Section PassThrough.

Context {R : Runtime}.

Lemma merge_without_fragment (show inR : bool) (data delta : json) :
  first_delta data = Some (Some delta) ->
  truthy (get delta (js "content")) = false ->
  get delta (js "reasoning_content") = None ->
  merge show inR data delta = (inR, [Merged data []]).
Proof.
  intros Hpath Hc Hr; unfold merge.
  rewrite Hr; cbn [append_reasoning].
  assert (E : append_content inR (get delta (js "content")) = (inR, Some [])).
  { unfold append_content. destruct (get delta (js "content")); [|reflexivity].
    now rewrite Hc. }
  rewrite E, Hc; cbn [app output_text map List.concat truthy negb andb].
  assert (Ed : delete_reasoning_content delta = delta).
  { destruct delta as [| | | | |props]; try reflexivity.
    cbn [delete_reasoning_content]. now rewrite obj_delete_absent. }
  now rewrite Ed, (with_delta_same _ _ Hpath).
Qed.

(** With reasoning hidden, a delta that is an object comes out with the
    backend's content when that is a non-empty string, and with the empty
    string when it has a truthy [reasoning_content] and no truthy
    content. *)
Lemma merge_hidden_content (data : json) (props : list (jsstring * json))
  (c : jsstring) :
  first_delta data = Some (Some (JObj props)) ->
  obj_get props (js "content") = Some (JStr c) ->
  c <> [] ->
  exists d,
    merge false false data (JObj props) = (false, [Merged d [ContentText c]])
    /\ delta_content d = Some (JStr c).
Proof.
  intros Hpath Hc Hne.
  assert (E : merge false false data (JObj props)
              = (false,
                 [Merged (with_delta data
                            (delete_reasoning_content
                               (set_content (JObj props) (JStr c))))
                    [ContentText c]])).
  { unfold merge, append_reasoning. cbn [get]. rewrite Hc.
    assert (Er : match obj_get props (js "reasoning_content") with
                 | Some r =>
                     if false && truthy (obj_get props (js "reasoning_content"))
                     then (true,
                           option_map (fun s => [Opening] ++ [ReasoningText s])
                             (ToString r))
                     else (false, Some [])
                 | None => (false, Some [])
                 end = (false, @Some (list piece) [])).
    { destruct (obj_get props (js "reasoning_content")); reflexivity. }
    rewrite Er. unfold append_content.
    destruct c as [|x c]; [contradiction|].
    cbn [truthy ToString option_map app output_text map piece_text List.concat].
    rewrite app_nil_r. reflexivity. }
  eexists; split; [exact E|].
  assert (Ho : output_text [ContentText c] = c) by apply app_nil_r.
  pose proof (merge_written false false data (JObj props)
                (with_delta data
                   (delete_reasoning_content (set_content (JObj props) (JStr c))))
                [ContentText c] Hpath) as Hw.
  rewrite E, Ho in Hw. apply Hw; [now left|exact Hne].
Qed.

End PassThrough.

(** X5: an event line whose payload has no delta, or whose delta has no
    [reasoning_content] and no truthy content (a role, finish or usage
    event), is written back as [data: ] followed by [JSON.stringify] of the
    payload it was parsed to and a blank line, with nothing added to it or
    taken from it, and [inReasoning] keeps its value. *)
Theorem event_without_fragment_forwarded {R : Runtime} (show inR : bool)
  (line : jsstring) (data : json) :
  is_data_line line = true ->
  includes line (js "[DONE]") = false ->
  JSON_parse (slice 6 line) = Some data ->
  carries_no_fragment data = true ->
  fst (process_line show inR line) = inR
  /\ map written (snd (process_line show inR line))
     = [js "data: " ++ JSON_stringify data ++ [LF; LF]].
Proof.
  unfold is_data_line, carries_no_fragment, process_line.
  intros -> -> -> H; cbn [negb].
  destruct (first_delta data) as [[delta|]|] eqn:E; [|now split|discriminate].
  destruct (truthy (Some delta)) eqn:Et; cbn [negb orb] in *; [|now split].
  apply andb_true_iff in H as [Hc Hr].
  apply negb_true_iff in Hc.
  destruct (get delta (js "reasoning_content")) eqn:Er; [discriminate|].
  rewrite (merge_without_fragment show inR data delta E Hc Er). now split.
Qed.

Lemma event_without_fragment_forwarded_witness :
  is_data_line finish_line = true
  /\ includes finish_line (js "[DONE]") = false
  /\ (exists data,
        JSON_parse (slice 6 finish_line) = Some data
        /\ @carries_no_fragment ExampleRuntime data = true
        /\ fst (@process_line ExampleRuntime true true finish_line) = true).
Proof.
  split; [reflexivity|]. split; [reflexivity|].
  exists (match JSON_parse (slice 6 finish_line) with Some d => d | None => JNull end).
  assert (Hp : JSON_parse (slice 6 finish_line)
               = Some (match JSON_parse (slice 6 finish_line) with
                       | Some d => d
                       | None => JNull
                       end)) by (vm_compute; reflexivity).
  assert (Hc : @carries_no_fragment ExampleRuntime
                 (match JSON_parse (slice 6 finish_line) with
                  | Some d => d
                  | None => JNull
                  end) = true) by (vm_compute; reflexivity).
  split; [exact Hp|]. split; [exact Hc|].
  exact (proj1 (@event_without_fragment_forwarded ExampleRuntime true true
                  finish_line _ eq_refl eq_refl Hp Hc)).
Defined.

Section Hidden.

Context {R : Runtime}.

Lemma merge_hidden_reasoning_only (data : json) (props : list (jsstring * json)) :
  first_delta data = Some (Some (JObj props)) ->
  truthy (obj_get props (js "content")) = false ->
  truthy (obj_get props (js "reasoning_content")) = true ->
  exists d,
    merge false false data (JObj props) = (false, [Merged d []])
    /\ delta_content d = Some (JStr []).
Proof.
  intros Hpath Hc Hr.
  exists (with_delta data
            (delete_reasoning_content (set_content (JObj props) (JStr [])))).
  split.
  - unfold merge, append_reasoning, append_content. cbn [get].
    rewrite Hc, Hr.
    destruct (obj_get props (js "reasoning_content")); [|discriminate].
    destruct (obj_get props (js "content")); reflexivity.
  - unfold delta_content. cbn [set_content delete_reasoning_content].
    rewrite (with_delta_read _ _ _ Hpath).
    cbn [get_opt get].
    rewrite obj_get_delete_other by discriminate.
    now apply obj_get_set.
Qed.

Lemma process_line_merges (show inR : bool) (line : jsstring) (data : json)
  (props : list (jsstring * json)) :
  is_data_line line = true ->
  includes line (js "[DONE]") = false ->
  JSON_parse (slice 6 line) = Some data ->
  first_delta data = Some (Some (JObj props)) ->
  process_line show inR line = merge show inR data (JObj props).
Proof.
  unfold is_data_line, process_line. now intros -> -> -> ->.
Qed.

End Hidden.

(** X6: with reasoning hidden, as the file ships ([SHOW_REASONING] is
    [false]), an event whose delta is an object is written with the
    backend's content, unchanged, when that is a non-empty string, and
    with the empty string as content when the delta has a truthy
    [reasoning_content] and no truthy content (lines 174-176): reasoning
    events reach the caller as deltas with empty content. *)
Theorem hidden_reasoning_content {R : Runtime} (line : jsstring) (data : json)
  (props : list (jsstring * json)) :
  is_data_line line = true ->
  includes line (js "[DONE]") = false ->
  JSON_parse (slice 6 line) = Some data ->
  first_delta data = Some (Some (JObj props)) ->
  (forall c,
     obj_get props (js "content") = Some (JStr c) -> c <> [] ->
     exists d,
       process_line SHOW_REASONING false line = (false, [Merged d [ContentText c]])
       /\ delta_content d = Some (JStr c))
  /\ (truthy (obj_get props (js "content")) = false ->
      truthy (obj_get props (js "reasoning_content")) = true ->
      exists d,
        process_line SHOW_REASONING false line = (false, [Merged d []])
        /\ delta_content d = Some (JStr [])).
Proof.
  intros Hl Hd Hp Hpath.
  rewrite (process_line_merges _ _ _ _ _ Hl Hd Hp Hpath).
  split.
  - intros c. now apply merge_hidden_content.
  - now apply merge_hidden_reasoning_only.
Qed.

Lemma hidden_reasoning_content_witness :
  exists d,
    @process_line ExampleRuntime SHOW_REASONING false
      (Buffer_toString reasoning_line) = (false, [Merged d []])
    /\ delta_content d = Some (JStr []).
Proof.
  assert (Hp : JSON_parse (slice 6 (Buffer_toString reasoning_line))
               = Some (JObj [(js "choices",
                              JArr [JObj [(js "delta",
                                           JObj [(js "reasoning_content",
                                                  JStr (js "thinking..."))])]])]))
    by (vm_compute; reflexivity).
  exact (proj2 (@hidden_reasoning_content ExampleRuntime
                  (Buffer_toString reasoning_line) _
                  [(js "reasoning_content", JStr (js "thinking..."))]
                  eq_refl eq_refl Hp eq_refl) eq_refl eq_refl).
Defined.

(** ** The [catch] clause and the resolver *)

Section Envelope.

Context {R : Runtime}.

Lemma table_get_In (table : list (jsstring * jsstring)) (key id : jsstring) :
  table_get table key = Some id -> In (key, id) table.
Proof.
  induction table as [|[k v] table IH]; cbn [table_get]; [discriminate|].
  destruct (jsstring_eqb k key) eqn:E.
  - intros H; injection H as <-. apply jsstring_eqb_eq in E as ->. now left.
  - intros H; right; now apply IH.
Qed.

Lemma resolveFallback_known (name : jsstring) :
  In (resolveFallback name) fallback_ids.
Proof.
  unfold resolveFallback, fallback_ids; cbn [map In].
  destruct (_ || _); [now left|].
  destruct (_ || _); [right; now left|right; right; now left].
Qed.

Lemma listed_model_entries (now : nat -> N) (i : nat) (ids : list jsstring) :
  flat_map (fun entry => match get entry (js "id") with
                         | Some (JStr id) => [id]
                         | _ => []
                         end) (model_entries now i ids) = ids.
Proof.
  revert i; induction ids as [|id ids IH]; intros i; [reflexivity|].
  cbn [model_entries flat_map]. rewrite IH. reflexivity.
Qed.

End Envelope.

(** X7: whenever the [catch] clause answers (lines 222-232), the status it
    sets is not 0: it is the backend's status when the error carries a
    response with a status other than 0, and 500 when the error carries no
    response; the envelope's [code] is that same status, its [type] is
    [proxy_error], and its [message] is never an empty or otherwise falsy
    value. *)
Theorem catch_envelope {R : Runtime} (e : js_error) (status : N) (payload : json) :
  proxy_error e = Json status payload ->
  status <> 0
  /\ (error_response e = None -> status = 500)
  /\ (forall s data, error_response e = Some (s, data) -> s <> 0 -> status = s)
  /\ get_opt (get payload (js "error")) (js "code") = Some (JNum (decimal status))
  /\ get_opt (get payload (js "error")) (js "type") = Some (JStr (js "proxy_error"))
  /\ truthy (get_opt (get payload (js "error")) (js "message")) = true.
Proof.
  unfold proxy_error.
  set (st := match error_response e with
             | Some (s, _) => if s =? 0 then 500 else s
             | None => 500
             end).
  set (own := match error_message e with
              | [] => JStr (js "Internal server error")
              | text => JStr text
              end).
  set (from_backend := match error_response e with
                       | Some (_, data) => get_opt (get_opt data (js "error")) (js "message")
                       | None => None
                       end).
  set (msg := match from_backend with
              | Some m => if truthy from_backend then m else own
              | None => own
              end).
  destruct (ToString msg); [|discriminate].
  intros H; injection H as <- <-.
  assert (Hown : truthy (Some own) = true).
  { subst own. destruct (error_message e); reflexivity. }
  assert (Hmsg : truthy (Some msg) = true).
  { subst msg. destruct from_backend as [m|] eqn:E; [|exact Hown].
    destruct (truthy (Some m)) eqn:Em; [exact Em|exact Hown]. }
  repeat split.
  - subst st. destruct (error_response e) as [[s d]|]; [|discriminate].
    destruct (s =? 0) eqn:E; [discriminate|]. now apply N.eqb_neq in E.
  - subst st. now intros ->.
  - subst st. intros s d -> Hs. apply N.eqb_neq in Hs. now rewrite Hs.
  - exact Hmsg.
Qed.

Lemma catch_envelope_witness :
  @proxy_error ExampleRuntime backend_failure
  = Json 429
      (JObj [(js "error",
              JObj [(js "message", JStr (js "rate limited"));
                    (js "type", JStr (js "proxy_error"));
                    (js "code", JNum (js "429"))])])
  /\ 429 <> 0.
Proof.
  split; [reflexivity|].
  exact (proj1 (@catch_envelope ExampleRuntime backend_failure 429 _ eq_refl)).
Defined.

(** X8: a model name that is not a member of [Object.prototype] resolves
    (line 88) to a backend model id that is not empty: the value the table
    holds for the name when the name is one of its keys, whatever keywords
    the name contains, and otherwise one of the three ids of the keyword
    rules. *)
Theorem resolved_model_is_known {R : Runtime} (name : jsstring) :
  existsb (jsstring_eqb name) Object_prototype = false ->
  exists id,
    resolve name = ModelId id
    /\ id <> []
    /\ (In (name, id) MODEL_MAP
        \/ (table_get MODEL_MAP name = None /\ In id fallback_ids)).
Proof.
  intros H.
  destruct (table_get MODEL_MAP name) as [id|] eqn:E.
  - exists id. split; [now apply resolve_exact_key|].
    split; [now apply (MODEL_MAP_ids_not_empty name)|].
    left; now apply table_get_In.
  - exists (resolveFallback name). split; [now apply resolve_other_name|].
    pose proof (resolveFallback_known name) as Hk.
    split; [|right; now split].
    unfold fallback_ids in Hk; cbn [map In] in Hk.
    destruct Hk as [<-|[<-|[<-|[]]]]; discriminate.
Qed.

Lemma resolved_model_is_known_witness :
  exists id,
    @resolve ExampleRuntime (js "gpt-4-turbo") = ModelId id
    /\ id <> []
    /\ (In (js "gpt-4-turbo", id) MODEL_MAP
        \/ (table_get MODEL_MAP (js "gpt-4-turbo") = None /\ In id fallback_ids)).
Proof.
  exact (@resolved_model_is_known ExampleRuntime (js "gpt-4-turbo") eq_refl).
Defined.

(** X9: the model list of [GET /v1/models] (lines 58-66) names the keys of
    the table, in the table's order, whatever the clock reads; and every id
    it names is resolved by the table itself, never by the keyword rules:
    asking for a listed model reaches the backend model the table holds for
    it. *)
Theorem listed_models_resolve {R : Runtime} (now : nat -> N) (id : jsstring) :
  In id (listed_ids (models now)) ->
  listed_ids (models now) = map fst MODEL_MAP
  /\ exists nim, In (id, nim) MODEL_MAP /\ resolve id = ModelId nim.
Proof.
  assert (E : listed_ids (models now) = map fst MODEL_MAP)
    by apply (listed_model_entries now 0 (Object_keys MODEL_MAP)).
  rewrite E. intros Hin. split; [reflexivity|].
  destruct (table_get MODEL_MAP id) as [nim|] eqn:Et.
  - exists nim. split; [now apply table_get_In|now apply resolve_exact_key].
  - exfalso. cbn [MODEL_MAP map fst In] in Hin.
    repeat (destruct Hin as [<-|Hin]; [discriminate Et|]). exact Hin.
Qed.

Lemma listed_models_resolve_witness :
  exists nim,
    In (js "claude-3-opus", nim) MODEL_MAP
    /\ @resolve ExampleRuntime (js "claude-3-opus") = ModelId nim.
Proof.
  assert (H : In (js "claude-3-opus") (listed_ids (models (fun _ => 0))))
    by (vm_compute; do 4 right; left; reflexivity).
  exact (proj2 (@listed_models_resolve ExampleRuntime (fun _ => 0)
                  (js "claude-3-opus") H)).
Defined.

(** ** The route before and after the backend call *)

(** X10: a request with a usable [messages] array whose [model] is present
    but is not a string, and whose string form is no key of the lookup on
    line 88 ([null], a number, a boolean, most arrays and objects), is
    answered by the [catch] clause with status 500 and a [proxy_error]
    envelope with code 500, and the backend is not called: [resolveFallback]
    calls [toLowerCase] on the value (line 34). *)
Theorem non_string_model_rejected {R : Runtime} (t_id t_created : N)
  (body model : json) :
  nonempty_array (get body (js "messages")) = true ->
  get body (js "model") = Some model ->
  is_string model = false ->
  names_no_model model = true ->
  posted (chat_completions t_id t_created body) = None
  /\ exists text,
       chat_completions t_id t_created body
       = Respond
           (Json 500
              (JObj [(js "error",
                      JObj [(js "message", JStr text);
                            (js "type", JStr (js "proxy_error"));
                            (js "code", JNum (js "500"))])])).
Proof.
  intros Hm Hmodel Hs Hn.
  destruct (get body (js "messages")) as [mm|] eqn:Em; [|discriminate].
  destruct (get_messages_object _ _ Em) as [props ->].
  destruct mm as [| | | |[|m ms]|]; try discriminate.
  assert (E : resolve_value model = Throw (TypeError "name.toLowerCase is not a function")
              \/ resolve_value model
                 = Throw (TypeError "Cannot convert object to primitive value")).
  { unfold resolve_value. unfold names_no_model in Hn.
    destruct (ToString model) as [key|]; [|now right].
    destruct (MODEL_MAP_get key); [discriminate|].
    destruct model; try discriminate; now left. }
  unfold chat_completions. rewrite Em, Hmodel.
  cbn [truthy Array_isArray length_is_zero negb orb].
  destruct E as [-> | ->]; (split; [reflexivity|eexists; reflexivity]).
Qed.

Lemma non_string_model_rejected_witness :
  posted (@chat_completions ExampleRuntime 0 0 request_null_model) = None.
Proof.
  exact (proj1 (@non_string_model_rejected ExampleRuntime 0 0 request_null_model
                  JNull eq_refl eq_refl eq_refl eq_refl)).
Defined.

(** X11: whenever the handler calls the backend, the [stream] flag of the
    request it sends (line 96), the response type it asks for (line 112)
    and the branch it handles the response in (line 118) agree: all three
    are the truthiness of the caller's [stream], whatever kind of value
    that is.  The request carries [chat_template_kwargs: {thinking: true}]
    and the caller's [messages], which are a non-empty array. *)
Theorem stream_mode_consistent {R : Runtime} (t_id t_created : N)
  (body : json) (b : NimBody.t) :
  posted (chat_completions t_id t_created body) = Some b ->
  NimBody.stream b = truthy (get body (js "stream"))
  /\ asks_for_stream (chat_completions t_id t_created body) = NimBody.stream b
  /\ NimBody.chat_template_kwargs b = Some (JObj [(js "thinking", JBool true)])
  /\ get body (js "messages") = Some (NimBody.messages b)
  /\ nonempty_array (get body (js "messages")) = true.
Proof.
  unfold chat_completions.
  destruct body; try discriminate;
    (destruct (get _ (js "messages")) as [mm|]; [|discriminate];
     destruct mm as [| | | |[|m ms]|];
     cbn [truthy Array_isArray length_is_zero negb orb posted];
     try discriminate;
     try (destruct (Number_isZero _); discriminate);
     try (destruct b0; discriminate);
     try (destruct s; discriminate);
     destruct (resolve_value _); [|discriminate];
     destruct (truthy (get _ (js "stream"))) eqn:Es;
     cbn [posted asks_for_stream]; intros H; injection H as <-;
     cbn [build_nimBody NimBody.stream NimBody.chat_template_kwargs
          NimBody.messages nonempty_array ENABLE_THINKING];
     repeat split; try exact Es; try (symmetry; exact Es)).
Qed.

Lemma stream_mode_consistent_witness :
  exists b,
    posted (@chat_completions ExampleRuntime 0 0 request_streaming) = Some b
    /\ NimBody.stream b = true
    /\ asks_for_stream (@chat_completions ExampleRuntime 0 0 request_streaming) = true.
Proof.
  eexists. split; [reflexivity|].
  pose proof (@stream_mode_consistent ExampleRuntime 0 0 request_streaming _ eq_refl)
    as [H1 [H2 _]].
  split; [exact H1|]. rewrite H2. exact H1.
Defined.

(** ** The buffered branch *)

(** X12: in the buffered branch as the file ships (reasoning hidden), a
    backend response whose [choices] is an array without [null] elements is
    always answered, never handed to the [catch] clause; the completion has
    one choice for each of the backend's, in order, and the message of each
    is exactly [role: assistant] and a [content] that is the backend's
    content, or the empty string when that is missing or falsy: whatever
    else the backend's message holds, its [reasoning_content] included, is
    not passed on. *)
Theorem buffered_completion_hidden {R : Runtime} (t_id t_created : N)
  (model data : json) (items : list json) :
  get data (js "choices") = Some (JArr items) ->
  Forall (fun c => c <> JNull) items ->
  exists payload,
    completion SHOW_REASONING t_id t_created model data = Ok payload
    /\ choice_messages payload
       = map (fun c => Some (assistant_message (content_or_empty c))) items.
Proof.
  intros Hch Hitems.
  destruct (map_choices_hidden items Hitems) as [cs [E1 E2]].
  unfold completion, SHOW_REASONING.
  destruct data; try discriminate; rewrite Hch, E1; cbn [bind];
    (eexists; split; [reflexivity|exact E2]).
Qed.

Lemma buffered_completion_hidden_witness :
  exists payload,
    @completion ExampleRuntime SHOW_REASONING 0 0 (JStr (js "gpt-4o")) backend_answer
    = Ok payload
    /\ choice_messages payload = [Some (assistant_message (JStr (js "so")))].
Proof.
  assert (H : Forall (fun c => c <> JNull)
                [JObj [(js "index", JNum (js "0"));
                       (js "message",
                        JObj ((js "role", JStr (js "assistant")) :: both_fragments));
                       (js "finish_reason", JStr (js "stop"))]])
    by (constructor; [discriminate|constructor]).
  exact (@buffered_completion_hidden ExampleRuntime 0 0 (JStr (js "gpt-4o"))
           backend_answer _ eq_refl H).
Defined.

(** X13: with reasoning shown, a backend message that holds both a
    reasoning text and an answer, as non-empty strings, reads the same to
    the caller in both branches: the content the streaming branch writes
    for a delta holding the two, at the start of a stream, and the content
    the buffered branch puts in the choice are the same text, the reasoning
    between the opening and the closing marker followed by the answer. *)
Theorem buffered_text_is_streamed_text {R : Runtime} (data choice : json)
  (props : list (jsstring * json)) (r c : jsstring) :
  first_delta data = Some (Some (JObj props)) ->
  get choice (js "message") = Some (JObj props) ->
  obj_get props (js "reasoning_content") = Some (JStr r) -> r <> [] ->
  obj_get props (js "content") = Some (JStr c) -> c <> [] ->
  exists d ps c',
    merge true false data (JObj props) = (false, [Merged d ps])
    /\ map_choice true choice = Ok c'
    /\ delta_content d = Some (JStr (OPEN_MARKER ++ r ++ CLOSE_MARKER ++ c))
    /\ get_opt (get c' (js "message")) (js "content") = delta_content d.
Proof.
  intros Hpath Hmsg Hr Hrne Hc Hcne.
  set (ps := [Opening; ReasoningText r; Closing; ContentText c]).
  assert (Ho : output_text ps = OPEN_MARKER ++ r ++ CLOSE_MARKER ++ c).
  { unfold ps, output_text; cbn [map piece_text List.concat].
    now rewrite app_nil_r. }
  assert (E : merge true false data (JObj props)
              = (false,
                 [Merged (with_delta data
                            (delete_reasoning_content
                               (set_content (JObj props) (JStr (output_text ps)))))
                    ps])).
  { unfold merge, append_reasoning, append_content. cbn [get]. rewrite Hr, Hc.
    destruct r as [|x r]; [contradiction|]. destruct c as [|y c]; [contradiction|].
    cbn [andb truthy ToString option_map app]. fold ps.
    rewrite Ho. reflexivity. }
  assert (Hd : delta_content
                 (with_delta data
                    (delete_reasoning_content
                       (set_content (JObj props) (JStr (output_text ps)))))
               = Some (JStr (output_text ps))).
  { apply (merge_written true false data (JObj props) _ ps Hpath).
    - rewrite E. now left.
    - rewrite Ho. discriminate. }
  assert (Em : exists c',
             map_choice true choice = Ok c'
             /\ get_opt (get c' (js "message")) (js "content")
                = Some (JStr (OPEN_MARKER ++ r ++ CLOSE_MARKER ++ c))).
  { unfold map_choice. rewrite Hmsg. cbn [get_opt get]. rewrite Hr, Hc.
    destruct r as [|x r]; [contradiction|]. destruct c as [|y c]; [contradiction|].
    cbn [andb truthy ToString bind].
    destruct choice; try discriminate;
      (eexists; split; [reflexivity|]; destruct (get _ (js "index")); reflexivity). }
  destruct Em as [c' [Em1 Em2]].
  eexists; exists ps, c'. split; [exact E|]. split; [exact Em1|].
  rewrite Hd, Ho. now split.
Qed.

Lemma buffered_text_is_streamed_text_witness :
  exists d ps c',
    @merge ExampleRuntime true false event_with_both (JObj both_fragments)
    = (false, [Merged d ps])
    /\ @map_choice ExampleRuntime true (JObj [(js "message", JObj both_fragments)])
       = Ok c'
    /\ get_opt (get c' (js "message")) (js "content") = delta_content d.
Proof.
  assert (H1 : js "because" <> []) by discriminate.
  assert (H2 : js "so" <> []) by discriminate.
  destruct (@buffered_text_is_streamed_text ExampleRuntime event_with_both
              (JObj [(js "message", JObj both_fragments)]) both_fragments
              (js "because") (js "so") eq_refl eq_refl eq_refl H1 eq_refl H2)
    as [d [ps [c' [E1 [E2 [_ E3]]]]]].
  exists d, ps, c'. now repeat split.
Defined.
